(** * Notification: a key-addressed single-slot mailbox on FreeRTOS

    Shallow embedding of [src/src/Notification.h] and
    [src/src/Notification.cpp].  The class is sequential code that talks to
    three FreeRTOS services: the tick counter, one mutex and the task
    delay.  They are modelled by explicit state (the [World] record) and by
    a [Platform] oracle that fixes what the rest of the system does at each
    call: how long the mutex stays busy and how late the scheduler wakes
    the task. *)

From Stdlib Require Import ZArith Lia.
From stdpp Require Import gmap strings.

Local Open Scope Z_scope.

(** ** Machine types *)

(** The FreeRTOS headers are not part of the repository.  On the ESP32 port
    [TickType_t] is [uint32_t], so tick arithmetic is modulo [2 ^ 32], and
    [portMAX_DELAY] is its largest value, [0xFFFFFFFF]. *)
Definition TickType_modulus : Z := 2 ^ 32.

Definition portMAX_DELAY : Z := 4294967295.

(** [void*] as an address; [nullptr] is address zero. *)
Definition nullptr : Z := 0.

(** A struct member that a constructor may leave without an initializer.
    Reading [Indeterminate] is what the C++ code does when it reads a member
    that no constructor wrote. *)
Inductive member (A : Type) : Type :=
  | Init (a : A)
  | Indeterminate.
Arguments Init {A} a.
Arguments Indeterminate {A}.

(** ** The environment of one task *)

Record Platform := mkPlatform {
  (** ticks per second, the constant behind [pdMS_TO_TICKS] *)
  configTICK_RATE_HZ : Z;
  (** ticks until the mutex is free, at the n-th [xSemaphoreTake] *)
  lock_latency : nat -> N;
  (** ticks the task oversleeps at the n-th [vTaskDelay] *)
  sched_latency : nat -> N
}.

(** ** struct NotificationItem *)

Module NotificationItem.

Record t := mk {
  data : member Z;
  signal : member Z;
  timestamp : Z
}.

(** [NotificationItem(void* d) : data(d), timestamp(xTaskGetTickCount())] *)
Definition of_data (d : Z) (now : Z) : t :=
  {| data := Init d; signal := Indeterminate; timestamp := now |}.

(** [NotificationItem(int s) : signal(s), timestamp(xTaskGetTickCount())] *)
Definition of_signal (s : Z) (now : Z) : t :=
  {| data := Indeterminate; signal := Init s; timestamp := now |}.

End NotificationItem.

(** ** class Notification, together with the kernel state it observes *)

Record World := mkWorld {
  (** [std::map<std::string, NotificationItem> notifications] *)
  notifications : gmap string NotificationItem.t;
  (** [SemaphoreHandle_t mutex]: [None] is the null handle left by a failed
      [xSemaphoreCreateMutex]; [Some h] is a mutex, [h] telling whether the
      calling task holds it *)
  mutex : option bool;
  (** ticks since boot, not wrapped *)
  uptime : Z;
  (** number of [xSemaphoreTake] calls made so far *)
  takes : nat;
  (** number of [vTaskDelay] calls made so far *)
  sleeps : nat
}.

Definition set_notifications (m : gmap string NotificationItem.t) (w : World) : World :=
  mkWorld m (mutex w) (uptime w) (takes w) (sleeps w).

(** [std::map::emplace]: inserts only when the key is not there yet. *)
Definition emplace (k : string) (v : NotificationItem.t)
    (m : gmap string NotificationItem.t) : gmap string NotificationItem.t :=
  match m !! k with
  | Some _ => m
  | None => <[k := v]> m
  end.

(** [it = m.find(k); if (it != m.end()) m.erase(it);] *)
Definition erase_if_found (k : string)
    (m : gmap string NotificationItem.t) : gmap string NotificationItem.t :=
  match m !! k with
  | Some _ => delete k m
  | None => m
  end.

Section Code.

Variable P : Platform.

(** *** FreeRTOS services *)

(** The macro [(TickType_t)(ms * configTICK_RATE_HZ / 1000)]. *)
Definition pdMS_TO_TICKS (ms : Z) : Z :=
  (ms * configTICK_RATE_HZ P / 1000) mod TickType_modulus.

Definition xTaskGetTickCount (w : World) : Z :=
  uptime w mod TickType_modulus.

(** The task blocks until the mutex is free or [xBlockTime] ticks have
    passed, whichever comes first. *)
Definition xSemaphoreTake (xBlockTime : Z) (w : World) : bool * World :=
  match mutex w with
  | None => (false, w)
  | Some true =>
      (false, mkWorld (notifications w) (Some true)
                (uptime w + xBlockTime) (S (takes w)) (sleeps w))
  | Some false =>
      let lat := Z.of_N (lock_latency P (takes w)) in
      if lat <=? xBlockTime
      then (true, mkWorld (notifications w) (Some true)
                    (uptime w + lat) (S (takes w)) (sleeps w))
      else (false, mkWorld (notifications w) (Some false)
                     (uptime w + xBlockTime) (S (takes w)) (sleeps w))
  end.

Definition xSemaphoreGive (w : World) : World :=
  mkWorld (notifications w) (option_map (fun _ => false) (mutex w))
    (uptime w) (takes w) (sleeps w).

Definition vTaskDelay (xTicksToDelay : Z) (w : World) : World :=
  mkWorld (notifications w) (mutex w)
    (uptime w + xTicksToDelay + Z.of_N (sched_latency P (sleeps w)))
    (takes w) (S (sleeps w)).

(** *** Notification::send(const char* key, void* data) *)

Definition send (key : option string) (data : Z) (w : World) : bool * World :=
  match mutex w, key with
  | None, _ | _, None => (false, w)
  | Some _, Some k =>
      let '(ok, w1) := xSemaphoreTake (pdMS_TO_TICKS 100) w in
      if negb ok then (false, w1)
      else
        let m1 := erase_if_found k (notifications w1) in
        let m2 := emplace k (NotificationItem.of_data data (xTaskGetTickCount w1)) m1 in
        (true, xSemaphoreGive (set_notifications m2 w1))
  end.

(** *** Notification::send(const char* key, int signal) *)

Definition send_signal (key : option string) (signal : Z) (w : World) : bool * World :=
  match mutex w, key with
  | None, _ | _, None => (false, w)
  | Some _, Some k =>
      let '(ok, w1) := xSemaphoreTake (pdMS_TO_TICKS 100) w in
      if negb ok then (false, w1)
      else
        let m1 := erase_if_found k (notifications w1) in
        let m2 := emplace k (NotificationItem.of_signal signal (xTaskGetTickCount w1)) m1 in
        (true, xSemaphoreGive (set_notifications m2 w1))
  end.

(** *** Notification::consume

    The [while (true)] loop, one iteration per unit of fuel; [None] means
    the loop is still running when the fuel is spent. *)

Fixpoint consume_loop (fuel : nat) (k : string) (timeout_ticks start_time : Z)
    (w : World) : option (member Z * World) :=
  match fuel with
  | O => None
  | S fuel' =>
      (* the tail of the loop body: timeout check, delay, next iteration *)
      let check_timeout (w2 : World) :=
        let elapsed := (xTaskGetTickCount w2 - start_time) mod TickType_modulus in
        if timeout_ticks <=? elapsed then Some (Init nullptr, w2)
        else consume_loop fuel' k timeout_ticks start_time
               (vTaskDelay (pdMS_TO_TICKS 1) w2) in
      let '(ok, w1) := xSemaphoreTake (pdMS_TO_TICKS 10) w in
      if ok then
        match notifications w1 !! k with
        | Some it =>
            let data := NotificationItem.data it in
            Some (data, xSemaphoreGive
                          (set_notifications (delete k (notifications w1)) w1))
        | None => check_timeout (xSemaphoreGive w1)
        end
      else check_timeout w1
  end.

Definition consume (fuel : nat) (key : option string) (timeout_ticks : Z)
    (w : World) : option (member Z * World) :=
  match mutex w, key with
  | None, _ | _, None => Some (Init nullptr, w)
  | Some _, Some k => consume_loop fuel k timeout_ticks (xTaskGetTickCount w) w
  end.

(** *** Notification::signal *)

Fixpoint signal_loop (fuel : nat) (k : string) (timeout_ticks start_time : Z)
    (w : World) : option (member Z * World) :=
  match fuel with
  | O => None
  | S fuel' =>
      let check_timeout (w2 : World) :=
        let elapsed := (xTaskGetTickCount w2 - start_time) mod TickType_modulus in
        if timeout_ticks <=? elapsed then Some (Init (-1), w2)
        else signal_loop fuel' k timeout_ticks start_time
               (vTaskDelay (pdMS_TO_TICKS 1) w2) in
      let '(ok, w1) := xSemaphoreTake (pdMS_TO_TICKS 0) w in
      if ok then
        match notifications w1 !! k with
        | Some it =>
            let signal := NotificationItem.signal it in
            Some (signal, xSemaphoreGive
                            (set_notifications (delete k (notifications w1)) w1))
        | None => check_timeout (xSemaphoreGive w1)
        end
      else check_timeout w1
  end.

Definition signal (fuel : nat) (key : option string) (timeout_ticks : Z)
    (w : World) : option (member Z * World) :=
  match mutex w, key with
  | None, _ | _, None => Some (Init (-1), w)
  | Some _, Some k => signal_loop fuel k timeout_ticks (xTaskGetTickCount w) w
  end.

(** *** Notification::has and Notification::hasSignal *)

Definition has (key : option string) (w : World) : bool * World :=
  match mutex w, key with
  | None, _ | _, None => (false, w)
  | Some _, Some k =>
      let '(ok, w1) := xSemaphoreTake (pdMS_TO_TICKS 100) w in
      if negb ok then (false, w1)
      else
        let exists_ := bool_decide (is_Some (notifications w1 !! k)) in
        (exists_, xSemaphoreGive w1)
  end.

Definition hasSignal (key : option string) (w : World) : bool * World :=
  match mutex w, key with
  | None, _ | _, None => (false, w)
  | Some _, Some k =>
      let '(ok, w1) := xSemaphoreTake (pdMS_TO_TICKS 100) w in
      if negb ok then (false, w1)
      else
        let exists_ := bool_decide (is_Some (notifications w1 !! k)) in
        (exists_, xSemaphoreGive w1)
  end.

(** *** Notification::remove *)

Definition remove (key : option string) (w : World) : bool * World :=
  match mutex w, key with
  | None, _ | _, None => (false, w)
  | Some _, Some k =>
      let '(ok, w1) := xSemaphoreTake (pdMS_TO_TICKS 100) w in
      if negb ok then (false, w1)
      else
        match notifications w1 !! k with
        | Some _ =>
            (true, xSemaphoreGive (set_notifications (delete k (notifications w1)) w1))
        | None => (false, xSemaphoreGive w1)
        end
  end.

(** *** Notification::clear *)

Definition clear (w : World) : World :=
  match mutex w with
  | None => w
  | Some _ =>
      let '(ok, w1) := xSemaphoreTake (pdMS_TO_TICKS 100) w in
      if negb ok then w1
      else xSemaphoreGive (set_notifications ∅ w1)
  end.

(** *** Notification::count *)

Definition count (w : World) : nat * World :=
  match mutex w with
  | None => (O, w)
  | Some _ =>
      let '(ok, w1) := xSemaphoreTake (pdMS_TO_TICKS 100) w in
      if negb ok then (O, w1)
      else (size (notifications w1), xSemaphoreGive w1)
  end.

(** *** Notification::wait

    Only the key is tested on entry; the handle is tested by [has] at
    every poll. *)

Fixpoint wait_loop (fuel : nat) (key : option string) (timeout_ticks start_time : Z)
    (w : World) : option (bool * World) :=
  match fuel with
  | O => None
  | S fuel' =>
      let '(present, w1) := has key w in
      if present then Some (true, w1)
      else
        let elapsed := (xTaskGetTickCount w1 - start_time) mod TickType_modulus in
        if timeout_ticks <=? elapsed then Some (false, w1)
        else wait_loop fuel' key timeout_ticks start_time
               (vTaskDelay (pdMS_TO_TICKS 10) w1)
  end.

Definition wait (fuel : nat) (key : option string) (timeout_ticks : Z)
    (w : World) : option (bool * World) :=
  match key with
  | None => Some (false, w)
  | Some _ => wait_loop fuel key timeout_ticks (xTaskGetTickCount w) w
  end.

End Code.

(** ** Concrete platforms and stores, for running the code *)

(** A 1 kHz tick, a mutex nobody else wants, a scheduler that is on time. *)
Definition quiet : Platform :=
  mkPlatform 1000 (fun _ => 0%N) (fun _ => 0%N).

(** The mutex is held by another task for a second at every attempt. *)
Definition busy : Platform :=
  mkPlatform 1000 (fun _ => 1000%N) (fun _ => 0%N).



(** [Notification::Notification()]: an empty map and whatever handle
    [xSemaphoreCreateMutex] gave; a null handle is logged and kept. *)
Definition Notification_new (xSemaphoreCreateMutex : option bool) (now : Z) : World :=
  mkWorld ∅ xSemaphoreCreateMutex now O O.

(** The object right after a constructor that got its mutex, at boot. *)
Definition fresh : World := Notification_new (Some false) 0.

(** An object whose constructor got no mutex, at any later time. *)
Definition lockless (m : gmap string NotificationItem.t) (u : Z) (tk sl : nat) : World :=
  mkWorld m None u tk sl.

(** ** Facts about the primitives *)

(** The mutex is free within [budget] ticks at the next attempt of [w]. *)
Definition granted (P : Platform) (budget : Z) (w : World) : Prop :=
  Z.of_N (lock_latency P (takes w)) <= budget.

(** An initialized mutex that the calling task does not hold. *)
Definition unlocked (w : World) : Prop := mutex w = Some false.

(** The world after a take that succeeded and the matching give. *)
Definition after_lock (P : Platform) (m : gmap string NotificationItem.t)
    (w : World) : World :=
  mkWorld m (Some false)
    (uptime w + Z.of_N (lock_latency P (takes w))) (S (takes w)) (sleeps w).

(** The tick count read while the mutex is held. *)
Definition stamp (P : Platform) (w : World) : Z :=
  (uptime w + Z.of_N (lock_latency P (takes w))) mod TickType_modulus.

(** Ticks spent inside the n-th [xSemaphoreTake] with block time [budget]. *)
Definition take_cost (P : Platform) (budget : Z) (n : nat) : Z :=
  Z.min (Z.of_N (lock_latency P n)) budget.

(** The world after a poll that did not find the key: one take, the give
    when the take succeeded, the map as it was. *)
Definition after_poll (P : Platform) (budget : Z) (w : World) : World :=
  mkWorld (notifications w) (Some false)
    (uptime w + take_cost P budget (takes w)) (S (takes w)) (sleeps w).

(** One lock attempt of at most 100 ms, and nothing else, lies between [w]
    and [w']. *)
Definition one_attempt (P : Platform) (w w' : World) : Prop :=
  takes w' = S (takes w) ∧ sleeps w' = sleeps w
  ∧ uptime w <= uptime w' <= uptime w + pdMS_TO_TICKS P 100.

(** The world after a take that ran out of its 100 ms. *)
Definition refused (P : Platform) (w : World) : World :=
  mkWorld (notifications w) (Some false)
    (uptime w + pdMS_TO_TICKS P 100) (S (takes w)) (sleeps w).

#[global] Instance granted_dec P budget w : Decision (granted P budget w).
Proof. unfold granted. apply _. Defined.

Section Primitives.

Variable P : Platform.

Lemma take_granted budget w :
  unlocked w -> granted P budget w ->
  xSemaphoreTake P budget w =
    (true, mkWorld (notifications w) (Some true)
             (uptime w + Z.of_N (lock_latency P (takes w))) (S (takes w)) (sleeps w)).
Proof.
  unfold unlocked, granted, xSemaphoreTake. intros -> Hg.
  destruct (Z.leb_spec (Z.of_N (lock_latency P (takes w))) budget); [done | lia].
Qed.

Lemma take_refused budget w :
  unlocked w -> ¬ granted P budget w ->
  xSemaphoreTake P budget w =
    (false, mkWorld (notifications w) (Some false)
              (uptime w + budget) (S (takes w)) (sleeps w)).
Proof.
  unfold unlocked, granted, xSemaphoreTake. intros -> Hg.
  destruct (Z.leb_spec (Z.of_N (lock_latency P (takes w))) budget); [lia | done].
Qed.

Lemma take_true_inv budget w w1 :
  xSemaphoreTake P budget w = (true, w1) ->
  unlocked w ∧ granted P budget w.
Proof.
  unfold unlocked, granted, xSemaphoreTake.
  destruct (mutex w) as [[]|]; try discriminate.
  destruct (Z.leb_spec (Z.of_N (lock_latency P (takes w))) budget);
    [done | discriminate].
Qed.

Lemma pdMS_TO_TICKS_range ms : 0 <= pdMS_TO_TICKS P ms < TickType_modulus.
Proof. apply Z.mod_pos_bound. reflexivity. Qed.

Lemma elapsed_nonneg now start : 0 <= (now - start) mod TickType_modulus.
Proof. apply Z.mod_pos_bound. reflexivity. Qed.

(** Unsigned subtraction of two wrapped readings is the true distance, as
    long as that distance fits the counter. *)
Lemma elapsed_exact u0 u :
  0 <= u - u0 < TickType_modulus ->
  (u mod TickType_modulus - u0 mod TickType_modulus) mod TickType_modulus = u - u0.
Proof.
  intros H. rewrite <- Zminus_mod. by apply Z.mod_small.
Qed.

(** and never more than the true distance. *)
Lemma elapsed_le u0 u :
  u0 <= u ->
  (u mod TickType_modulus - u0 mod TickType_modulus) mod TickType_modulus <= u - u0.
Proof.
  intros H. rewrite <- Zminus_mod. apply Z.mod_le; [lia | reflexivity].
Qed.

Lemma emplace_erase k v m : emplace k v (erase_if_found k m) = <[k := v]> m.
Proof.
  unfold emplace, erase_if_found. destruct (m !! k) eqn:E.
  - rewrite lookup_delete_eq. apply insert_delete_eq.
  - by rewrite E.
Qed.

End Primitives.

(** ** One step of each operation *)

Section Steps.

Variable P : Platform.

Lemma send_granted k p w :
  unlocked w -> granted P (pdMS_TO_TICKS P 100) w ->
  send P (Some k) p w =
    (true, after_lock P (<[k := NotificationItem.of_data p (stamp P w)]> (notifications w)) w).
Proof.
  intros Hu Hg. unfold send. rewrite Hu, (take_granted P _ w Hu Hg). cbn.
  by rewrite emplace_erase.
Qed.

Lemma send_signal_granted k v w :
  unlocked w -> granted P (pdMS_TO_TICKS P 100) w ->
  send_signal P (Some k) v w =
    (true, after_lock P (<[k := NotificationItem.of_signal v (stamp P w)]> (notifications w)) w).
Proof.
  intros Hu Hg. unfold send_signal. rewrite Hu, (take_granted P _ w Hu Hg). cbn.
  by rewrite emplace_erase.
Qed.

Lemma send_true_inv k p w w1 :
  send P (Some k) p w = (true, w1) ->
  unlocked w ∧ granted P (pdMS_TO_TICKS P 100) w.
Proof.
  unfold send. destruct (mutex w) as [h|] eqn:Hm; [|discriminate].
  destruct (xSemaphoreTake P (pdMS_TO_TICKS P 100) w) as [[] w'] eqn:Ht;
    [|discriminate].
  intros _. by apply take_true_inv in Ht.
Qed.

Lemma send_signal_true_inv k v w w1 :
  send_signal P (Some k) v w = (true, w1) ->
  unlocked w ∧ granted P (pdMS_TO_TICKS P 100) w.
Proof.
  unfold send_signal. destruct (mutex w) as [h|] eqn:Hm; [|discriminate].
  destruct (xSemaphoreTake P (pdMS_TO_TICKS P 100) w) as [[] w'] eqn:Ht;
    [|discriminate].
  intros _. by apply take_true_inv in Ht.
Qed.

(** A poll that gets the mutex and finds the key returns the [data] member
    and erases the entry, whatever the timeout. *)
Lemma consume_found fuel k t it w :
  unlocked w -> granted P (pdMS_TO_TICKS P 10) w ->
  notifications w !! k = Some it ->
  consume P (S fuel) (Some k) t w =
    Some (NotificationItem.data it, after_lock P (delete k (notifications w)) w).
Proof.
  intros Hu Hg Hk. unfold consume. rewrite Hu. cbn [consume_loop].
  rewrite (take_granted P _ w Hu Hg). cbn. by rewrite Hk.
Qed.

Lemma signal_found fuel k t it w :
  unlocked w -> granted P (pdMS_TO_TICKS P 0) w ->
  notifications w !! k = Some it ->
  signal P (S fuel) (Some k) t w =
    Some (NotificationItem.signal it, after_lock P (delete k (notifications w)) w).
Proof.
  intros Hu Hg Hk. unfold signal. rewrite Hu. cbn [signal_loop].
  rewrite (take_granted P _ w Hu Hg). cbn. by rewrite Hk.
Qed.

(** With a zero timeout the first poll decides: a key that is not there
    gives the null pointer, with or without the mutex. *)
Lemma consume_absent_now fuel k w :
  unlocked w -> notifications w !! k = None ->
  ∃ w', consume P (S fuel) (Some k) 0 w = Some (Init nullptr, w')
        ∧ notifications w' = notifications w ∧ unlocked w'.
Proof.
  intros Hu Hk. unfold consume. rewrite Hu. cbn [consume_loop].
  destruct (decide (granted P (pdMS_TO_TICKS P 10) w)) as [Hg|Hg].
  - rewrite (take_granted P _ w Hu Hg). cbn [notifications]. rewrite Hk.
    rewrite (proj2 (Z.leb_le _ _) (elapsed_nonneg _ _)).
    eexists; split; [reflexivity | done].
  - rewrite (take_refused P _ w Hu Hg).
    rewrite (proj2 (Z.leb_le _ _) (elapsed_nonneg _ _)).
    eexists; split; [reflexivity | done].
Qed.

End Steps.

(** ** Send, then consume *)

(** C1. When [send(k, p)] has succeeded and the mutex is free for the
    consumer that follows, [consume(k, t)] returns [p] for every timeout [t]
    and erases the entry of [k]; a second [consume(k, 0)] then returns the
    null pointer. *)
Theorem send_consume_exactly_once P k p t w w1 fuel fuel' :
  send P (Some k) p w = (true, w1) ->
  granted P (pdMS_TO_TICKS P 10) w1 ->
  ∃ w2 w3,
    consume P (S fuel) (Some k) t w1 = Some (Init p, w2)
    ∧ notifications w2 = delete k (notifications w1)
    ∧ notifications w2 !! k = None
    ∧ consume P (S fuel') (Some k) 0 w2 = Some (Init nullptr, w3)
    ∧ notifications w3 = notifications w2.
Proof.
  intros Hs Hg. destruct (send_true_inv P _ _ _ _ Hs) as [Hu Hg0].
  rewrite (send_granted P k p w Hu Hg0) in Hs. injection Hs as <-.
  set (w1 := after_lock P _ w) in *.
  assert (Hk : notifications w1 !! k = Some (NotificationItem.of_data p (stamp P w)))
    by apply lookup_insert_eq.
  assert (Hu1 : unlocked w1) by done.
  rewrite (consume_found P fuel k t _ w1 Hu1 Hg Hk).
  set (w2 := after_lock P _ w1).
  assert (Hk2 : notifications w2 !! k = None) by apply lookup_delete_eq.
  destruct (consume_absent_now P fuel' k w2) as (w3 & H3 & Hm3 & _); [done..|].
  exists w2, w3. done.
Qed.

Lemma send_consume_exactly_once_witness :
  ∃ w2 w3,
    consume quiet 1 (Some "temperature"%string) 1000
      (snd (send quiet (Some "temperature"%string) 1073741824 fresh))
      = Some (Init 1073741824, w2)
    ∧ notifications w2
      = delete "temperature"%string
          (notifications (snd (send quiet (Some "temperature"%string) 1073741824 fresh)))
    ∧ notifications w2 !! "temperature"%string = None
    ∧ consume quiet 1 (Some "temperature"%string) 0 w2 = Some (Init nullptr, w3)
    ∧ notifications w3 = notifications w2.
Proof.
  apply (send_consume_exactly_once quiet "temperature"%string 1073741824 1000 fresh).
  - reflexivity.
  - apply Z.leb_le. vm_compute. reflexivity.
Defined.

(** C7. Two successful sends to one key, nothing consumed in between: the map
    holds one entry for the key, built from the second payload, and it is
    the first map with the key deleted and then inserted; the number of
    entries did not grow with the second send.  The next [consume] returns
    the second payload and leaves no entry for the key, so that the first
    payload can no longer be retrieved. *)
Theorem send_twice_replaces P k p1 p2 t w w1 w2 fuel fuel' :
  send P (Some k) p1 w = (true, w1) ->
  send P (Some k) p2 w1 = (true, w2) ->
  granted P (pdMS_TO_TICKS P 10) w2 ->
  notifications w2 !! k = Some (NotificationItem.of_data p2 (stamp P w1))
  ∧ notifications w2
    = <[k := NotificationItem.of_data p2 (stamp P w1)]> (delete k (notifications w1))
  ∧ size (notifications w2) = size (notifications w1)
  ∧ ∃ w3 w4,
      consume P (S fuel) (Some k) t w2 = Some (Init p2, w3)
      ∧ notifications w3 = delete k (notifications w)
      ∧ consume P (S fuel') (Some k) 0 w3 = Some (Init nullptr, w4).
Proof.
  intros Hs1 Hs2 Hg.
  destruct (send_true_inv P _ _ _ _ Hs1) as [Hu Hg0].
  rewrite (send_granted P k p1 w Hu Hg0) in Hs1. injection Hs1 as <-.
  set (w1 := after_lock P _ w) in *.
  destruct (send_true_inv P _ _ _ _ Hs2) as [Hu1 Hg1].
  rewrite (send_granted P k p2 w1 Hu1 Hg1) in Hs2. injection Hs2 as <-.
  set (w2 := after_lock P _ w1) in *.
  assert (Hk : notifications w2 !! k = Some (NotificationItem.of_data p2 (stamp P w1)))
    by apply lookup_insert_eq.
  assert (Hu2 : unlocked w2) by done.
  split; [exact Hk|]. split.
  { cbn [w2 after_lock notifications]. by rewrite insert_delete_eq. }
  split.
  { cbn [w2 w1 after_lock notifications].
    rewrite insert_insert_eq.
    destruct (notifications w !! k) as [it|] eqn:E.
    - rewrite <- (insert_delete_eq (notifications w) k (NotificationItem.of_data p2 _)).
      rewrite <- (insert_delete_eq (notifications w) k (NotificationItem.of_data p1 _)).
      rewrite !map_size_insert_None by apply lookup_delete_eq. done.
    - by rewrite !map_size_insert_None. }
  rewrite (consume_found P fuel k t _ w2 Hu2 Hg Hk).
  set (w3 := after_lock P _ w2).
  assert (Hm3 : notifications w3 = delete k (notifications w)).
  { cbn [w3 w2 w1 after_lock notifications].
    by rewrite !delete_insert_eq. }
  assert (Hk3 : notifications w3 !! k = None)
    by (rewrite Hm3; apply lookup_delete_eq).
  destruct (consume_absent_now P fuel' k w3) as (w4 & H4 & _); [done..|].
  exists w3, w4. done.
Qed.

Lemma send_twice_replaces_witness :
  let w1 := snd (send quiet (Some "status"%string) 4096 fresh) in
  let w2 := snd (send quiet (Some "status"%string) 8192 w1) in
  notifications w2 !! "status"%string
    = Some (NotificationItem.of_data 8192 (stamp quiet w1))
  ∧ notifications w2
    = <["status"%string := NotificationItem.of_data 8192 (stamp quiet w1)]>
        (delete "status"%string (notifications w1))
  ∧ size (notifications w2) = size (notifications w1)
  ∧ ∃ w3 w4,
      consume quiet 1 (Some "status"%string) 100 w2 = Some (Init 8192, w3)
      ∧ notifications w3 = delete "status"%string (notifications fresh)
      ∧ consume quiet 1 (Some "status"%string) 0 w3 = Some (Init nullptr, w4).
Proof.
  apply (send_twice_replaces quiet "status"%string 4096 8192 100 fresh).
  - reflexivity.
  - reflexivity.
  - apply Z.leb_le. vm_compute. reflexivity.
Defined.

(** C10. [send(k, nullptr)] succeeds and stores an entry whose payload is the
    null pointer; the following [consume(k, t)] erases that entry and returns
    the null pointer, which is also what [consume] returns for a key that
    has no entry. *)
Theorem null_payload_looks_absent P k t w fuel :
  unlocked w ->
  granted P (pdMS_TO_TICKS P 100) w ->
  Z.of_N (lock_latency P (S (takes w))) <= pdMS_TO_TICKS P 10 ->
  ∃ w1 w2,
    send P (Some k) nullptr w = (true, w1)
    ∧ notifications w1 !! k = Some (NotificationItem.of_data nullptr (stamp P w))
    ∧ consume P (S fuel) (Some k) t w1 = Some (Init nullptr, w2)
    ∧ notifications w2 !! k = None
    ∧ ∃ w3, consume P (S fuel) (Some k) 0 w2 = Some (Init nullptr, w3).
Proof.
  intros Hu Hg Hg1.
  set (w1 := after_lock P
    (<[k := NotificationItem.of_data nullptr (stamp P w)]> (notifications w)) w).
  assert (Hk : notifications w1 !! k = Some (NotificationItem.of_data nullptr (stamp P w)))
    by apply lookup_insert_eq.
  assert (Hu1 : unlocked w1) by done.
  assert (Hg1' : granted P (pdMS_TO_TICKS P 10) w1) by exact Hg1.
  set (w2 := after_lock P (delete k (notifications w1)) w1).
  assert (Hk2 : notifications w2 !! k = None) by apply lookup_delete_eq.
  destruct (consume_absent_now P fuel k w2) as (w3 & H3 & _); [done..|].
  exists w1, w2. split; [by apply send_granted|]. split; [done|].
  split; [exact (consume_found P fuel k t _ w1 Hu1 Hg1' Hk)|].
  split; [done|]. by exists w3.
Qed.

Lemma null_payload_looks_absent_witness :
  ∃ w1 w2,
    send quiet (Some "ready"%string) nullptr fresh = (true, w1)
    ∧ notifications w1 !! "ready"%string
      = Some (NotificationItem.of_data nullptr (stamp quiet fresh))
    ∧ consume quiet 1 (Some "ready"%string) 100 w1 = Some (Init nullptr, w2)
    ∧ notifications w2 !! "ready"%string = None
    ∧ ∃ w3, consume quiet 1 (Some "ready"%string) 0 w2 = Some (Init nullptr, w3).
Proof.
  apply (null_payload_looks_absent quiet "ready"%string 100 fresh 0).
  - reflexivity.
  - apply Z.leb_le. vm_compute. reflexivity.
  - apply Z.leb_le. vm_compute. reflexivity.
Defined.

(** ** Presence checks *)

(** C3. [has] and [hasSignal] are the same function of the key and the
    store: same answer, same effect on the mutex and the clock; and the
    answer does not depend on which constructor built the entry. *)
Theorem has_hasSignal_agree P key w :
  has P key w = hasSignal P key w
  ∧ ∀ k it it',
      fst (has P (Some k) (set_notifications (<[k := it]> (notifications w)) w))
      = fst (hasSignal P (Some k) (set_notifications (<[k := it']> (notifications w)) w)).
Proof.
  split; [reflexivity|]. intros k it it'.
  unfold has, hasSignal, set_notifications, xSemaphoreTake. cbn [mutex takes uptime].
  destruct (mutex w) as [[]|]; cbn; try reflexivity.
  destruct (_ <=? _); cbn; [|reflexivity].
  by rewrite !lookup_insert_eq.
Qed.

(** ** Null and empty keys *)

(** C4, as the code has it. A null key is refused by every operation before
    anything else happens: the result is the failure value and the world is
    the one the call started in (no take, no delay, no tick, same map). *)
Theorem null_key_rejected P fuel p v t w :
  send P None p w = (false, w)
  ∧ send_signal P None v w = (false, w)
  ∧ consume P fuel None t w = Some (Init nullptr, w)
  ∧ signal P fuel None t w = Some (Init (-1), w)
  ∧ has P None w = (false, w)
  ∧ hasSignal P None w = (false, w)
  ∧ remove P None w = (false, w)
  ∧ wait P fuel None t w = Some (false, w).
Proof.
  unfold send, send_signal, consume, signal, has, hasSignal, remove, wait.
  destruct (mutex w); repeat split; reflexivity.
Qed.

(** C4 as stated fails for the empty key: it is a key like any other.  The
    send is not refused, takes the mutex once and stores an entry that
    [has] then reports. *)
Lemma empty_key_accepted :
  send quiet (Some ""%string) 4096 fresh ≠ (false, fresh)
  ∧ fst (send quiet (Some ""%string) 4096 fresh) = true
  ∧ takes (snd (send quiet (Some ""%string) 4096 fresh)) = 1%nat
  ∧ notifications (snd (send quiet (Some ""%string) 4096 fresh)) !! ""%string
    = Some (NotificationItem.of_data 4096 0)
  ∧ fst (has quiet (Some ""%string) (snd (send quiet (Some ""%string) 4096 fresh))) = true.
Proof.
  split; [intros H; apply (f_equal fst) in H; vm_compute in H; discriminate|].
  repeat split; vm_compute; reflexivity.
Qed.

(** ** The polling loops on a key that has no entry *)

Section Polling.

Variable P : Platform.

Lemma take_cost_range budget n : 0 <= budget -> 0 <= take_cost P budget n <= budget.
Proof. unfold take_cost. lia. Qed.

(** One iteration of [consume] that finds nothing. *)
Lemma consume_loop_miss fuel k T start w :
  unlocked w -> notifications w !! k = None ->
  consume_loop P (S fuel) k T start w =
    let w2 := after_poll P (pdMS_TO_TICKS P 10) w in
    if T <=? (xTaskGetTickCount w2 - start) mod TickType_modulus
    then Some (Init nullptr, w2)
    else consume_loop P fuel k T start (vTaskDelay P (pdMS_TO_TICKS P 1) w2).
Proof.
  intros Hu Hk. cbn [consume_loop]. unfold after_poll, take_cost.
  destruct (decide (granted P (pdMS_TO_TICKS P 10) w)) as [Hg|Hg].
  - rewrite (take_granted P _ w Hu Hg). cbn [notifications]. rewrite Hk.
    unfold granted in Hg. rewrite Z.min_l by lia. reflexivity.
  - rewrite (take_refused P _ w Hu Hg).
    unfold granted in Hg. rewrite Z.min_r by lia. reflexivity.
Qed.

Lemma signal_loop_miss fuel k T start w :
  unlocked w -> notifications w !! k = None ->
  signal_loop P (S fuel) k T start w =
    let w2 := after_poll P (pdMS_TO_TICKS P 0) w in
    if T <=? (xTaskGetTickCount w2 - start) mod TickType_modulus
    then Some (Init (-1), w2)
    else signal_loop P fuel k T start (vTaskDelay P (pdMS_TO_TICKS P 1) w2).
Proof.
  intros Hu Hk. cbn [signal_loop]. unfold after_poll, take_cost.
  destruct (decide (granted P (pdMS_TO_TICKS P 0) w)) as [Hg|Hg].
  - rewrite (take_granted P _ w Hu Hg). cbn [notifications]. rewrite Hk.
    unfold granted in Hg. rewrite Z.min_l by lia. reflexivity.
  - rewrite (take_refused P _ w Hu Hg).
    unfold granted in Hg. rewrite Z.min_r by lia. reflexivity.
Qed.


Lemma signal_loop_absent_result k T u0 fuel :
  ∀ w r w',
    unlocked w -> notifications w !! k = None -> u0 <= uptime w ->
    signal_loop P fuel k T (u0 mod TickType_modulus) w = Some (r, w') ->
    r = Init (-1) ∧ notifications w' = notifications w
    ∧ unlocked w' ∧ T <= uptime w' - u0.
Proof.
  induction fuel as [|fuel IH]; intros w r w' Hu Hk Hle; [discriminate|].
  rewrite (signal_loop_miss fuel k T _ w Hu Hk). cbv zeta.
  pose proof (take_cost_range (pdMS_TO_TICKS P 0) (takes w)
                (proj1 (pdMS_TO_TICKS_range P 0))) as Hc.
  pose proof (pdMS_TO_TICKS_range P 1) as Hd.
  destruct (Z.leb_spec T
    ((xTaskGetTickCount (after_poll P (pdMS_TO_TICKS P 0) w)
      - u0 mod TickType_modulus) mod TickType_modulus)) as [Hret|Hgo].
  - intros [= <- <-]. repeat split.
    unfold xTaskGetTickCount, after_poll in Hret |- *. cbn [uptime] in Hret |- *.
    pose proof (elapsed_le u0 (uptime w + take_cost P (pdMS_TO_TICKS P 0) (takes w))).
    lia.
  - intros Hrun. apply IH in Hrun; [exact Hrun|done|exact Hk|].
    unfold vTaskDelay, after_poll. cbn [uptime sleeps]. lia.
Qed.

End Polling.

(** ** Timeout of [consume] *)

Section Deadline.

Variable P : Platform.
Variables (k : string) (T u0 la d : Z).

(** a take costs at most [la] ticks *)
Hypothesis take_bound : ∀ n, take_cost P (pdMS_TO_TICKS P 10) n <= la.
(** a delay moves the clock, by at most [d] ticks *)
Hypothesis delay_bound : ∀ n, 1 <= pdMS_TO_TICKS P 1 + Z.of_N (sched_latency P n) <= d.
(** the deadline lies one polling period before the counter wraps *)
Hypothesis no_wrap : T + la + d <= TickType_modulus.


End Deadline.






(** ** The sentinel of [signal] *)

(** C6, as the code has it. [signal] reports a missing entry as [-1].  Every
    value other than [-1] that was stored by the integer [send] comes back
    as itself, so it differs from the report of absence. *)
Theorem signal_sentinel_apart P k v t w w1 fuel :
  v ≠ -1 ->
  send_signal P (Some k) v w = (true, w1) ->
  granted P (pdMS_TO_TICKS P 0) w1 ->
  (∃ w2, signal P (S fuel) (Some k) t w1 = Some (Init v, w2)
         ∧ notifications w2 !! k = None)
  ∧ (∀ fuel' k' t' w0 r w0',
      unlocked w0 -> notifications w0 !! k' = None ->
      signal P fuel' (Some k') t' w0 = Some (r, w0') ->
      r = Init (-1) ∧ r ≠ Init v).
Proof.
  intros Hv Hs Hg. destruct (send_signal_true_inv P _ _ _ _ Hs) as [Hu Hg0].
  rewrite (send_signal_granted P k v w Hu Hg0) in Hs. injection Hs as <-.
  set (w1 := after_lock P _ w) in *.
  assert (Hk : notifications w1 !! k = Some (NotificationItem.of_signal v (stamp P w)))
    by apply lookup_insert_eq.
  assert (Hu1 : unlocked w1) by done.
  split.
  - rewrite (signal_found P fuel k t _ w1 Hu1 Hg Hk). eexists. split; [reflexivity|].
    apply lookup_delete_eq.
  - intros fuel' k' t' w0 r w0' Hu0 Hk0. unfold signal. rewrite Hu0. intros Hrun.
    apply signal_loop_absent_result in Hrun; [|done|done|lia].
    destruct Hrun as (-> & _). split; [done|]. intros [= E]. by apply Hv.
Qed.

Lemma signal_sentinel_apart_witness :
  (∃ w2, signal quiet 1 (Some "counter"%string) 100
           (snd (send_signal quiet (Some "counter"%string) 7 fresh)) = Some (Init 7, w2)
         ∧ notifications w2 !! "counter"%string = None)
  ∧ (∀ fuel' k' t' w0 r w0',
      unlocked w0 -> notifications w0 !! k' = None ->
      signal quiet fuel' (Some k') t' w0 = Some (r, w0') ->
      r = Init (-1) ∧ r ≠ Init 7).
Proof.
  apply (signal_sentinel_apart quiet "counter"%string 7 100 fresh).
  - lia.
  - reflexivity.
  - apply Z.leb_le. vm_compute. reflexivity.
Defined.

(** C6 as stated fails at the value [-1]: the integer [send] stores it, and
    [signal] then returns the very value it returns for a store without the
    key. *)
Lemma sentinel_is_storable :
  fst (send_signal quiet (Some "counter"%string) (-1) fresh) = true
  ∧ fst <$> signal quiet 1 (Some "counter"%string) 0
              (snd (send_signal quiet (Some "counter"%string) (-1) fresh))
    = Some (Init (-1))
  ∧ fst <$> signal quiet 1 (Some "counter"%string) 0 fresh = Some (Init (-1)).
Proof. repeat split; vm_compute; reflexivity. Qed.

(** ** Mixing the two variants *)

(** [consume] on an entry made by the integer [send] takes the branch of a
    found key: it erases the entry and returns the [data] member, which the
    integer constructor never wrote. *)
Lemma consume_after_send_signal P k v t w w1 fuel :
  send_signal P (Some k) v w = (true, w1) ->
  granted P (pdMS_TO_TICKS P 10) w1 ->
  ∃ w2, consume P (S fuel) (Some k) t w1 = Some (Indeterminate, w2)
        ∧ notifications w2 = delete k (notifications w).
Proof.
  intros Hs Hg. destruct (send_signal_true_inv P _ _ _ _ Hs) as [Hu Hg0].
  rewrite (send_signal_granted P k v w Hu Hg0) in Hs. injection Hs as <-.
  set (w1 := after_lock P _ w) in *.
  assert (Hk : notifications w1 !! k = Some (NotificationItem.of_signal v (stamp P w)))
    by apply lookup_insert_eq.
  assert (Hu1 : unlocked w1) by done.
  rewrite (consume_found P fuel k t _ w1 Hu1 Hg Hk). eexists. split; [reflexivity|].
  cbn [w1 after_lock notifications]. by rewrite delete_insert_eq.
Qed.

(** C2 on the code: after [send("counter", 7)], [consume("counter", 0)] does
    not report absence.  It returns the unwritten [data] member of the
    signal entry and erases the entry, so that the [signal] call the entry
    was meant for finds nothing and returns [-1]. *)
Theorem consume_takes_signal_entry :
  let w1 := snd (send_signal quiet (Some "counter"%string) 7 fresh) in
  fst (send_signal quiet (Some "counter"%string) 7 fresh) = true
  ∧ ∃ w2,
      consume quiet 1 (Some "counter"%string) 0 w1 = Some (Indeterminate, w2)
      ∧ consume quiet 1 (Some "counter"%string) 0 w1 ≠ Some (Init nullptr, w2)
      ∧ notifications w2 !! "counter"%string = None
      ∧ fst <$> signal quiet 1 (Some "counter"%string) 0 w2 = Some (Init (-1)).
Proof.
  cbv zeta. split; [reflexivity|].
  eexists. split; [vm_compute; reflexivity|].
  split; [vm_compute; discriminate|].
  split; vm_compute; reflexivity.
Qed.

(** ** Lock failure *)

Section LockFailure.

Variable P : Platform.

Lemma locked_op_cases (w : World) :
  unlocked w ->
  (granted P (pdMS_TO_TICKS P 100) w
   ∧ xSemaphoreTake P (pdMS_TO_TICKS P 100) w
     = (true, mkWorld (notifications w) (Some true)
                (uptime w + Z.of_N (lock_latency P (takes w)))
                (S (takes w)) (sleeps w)))
  ∨ (¬ granted P (pdMS_TO_TICKS P 100) w
     ∧ xSemaphoreTake P (pdMS_TO_TICKS P 100) w = (false, refused P w)).
Proof.
  intros Hu. destruct (decide (granted P (pdMS_TO_TICKS P 100) w)) as [Hg|Hg].
  - left. split; [done|]. by apply take_granted.
  - right. split; [done|]. by apply take_refused.
Qed.

(** Each of the five operations makes one lock attempt, granted or not. *)
Lemma single_attempt k p w :
  unlocked w ->
  one_attempt P w (snd (send P (Some k) p w))
  ∧ one_attempt P w (snd (has P (Some k) w))
  ∧ one_attempt P w (snd (remove P (Some k) w))
  ∧ one_attempt P w (clear P w)
  ∧ one_attempt P w (snd (count P w)).
Proof.
  intros Hu. unfold send, has, remove, clear, count. rewrite Hu.
  destruct (locked_op_cases w Hu) as [[Hg ->]|[Hg ->]]; cbn [negb snd].
  - repeat split; try destruct (notifications _ !! k);
      cbn; unfold granted in Hg; lia.
  - repeat split; cbn; pose proof (pdMS_TO_TICKS_range P 100); lia.
Qed.

(** What they return when the attempt fails. *)
Lemma refused_results k p v w :
  unlocked w -> ¬ granted P (pdMS_TO_TICKS P 100) w ->
  send P (Some k) p w = (false, refused P w)
  ∧ send_signal P (Some k) v w = (false, refused P w)
  ∧ has P (Some k) w = (false, refused P w)
  ∧ hasSignal P (Some k) w = (false, refused P w)
  ∧ remove P (Some k) w = (false, refused P w)
  ∧ clear P w = refused P w
  ∧ count P w = (O, refused P w).
Proof.
  intros Hu Hg. unfold send, send_signal, has, hasSignal, remove, clear, count.
  rewrite Hu, (take_refused P _ w Hu Hg). repeat split.
Qed.

End LockFailure.

(** C8. On an initialized store whose mutex does not come free within the
    100 ms of the attempt, [send] returns false and the map is the one it
    found; the call has made one take and no delay, and [has], [remove],
    [clear] and [count] fail the same way.  With or without the mutex, each
    of the five makes exactly one take, bounded by 100 ms, and never
    sleeps. *)
Theorem lock_failure_is_atomic P k p w :
  unlocked w ->
  ¬ granted P (pdMS_TO_TICKS P 100) w ->
  (fst (send P (Some k) p w) = false
   ∧ notifications (snd (send P (Some k) p w)) = notifications w
   ∧ unlocked (snd (send P (Some k) p w)))
  ∧ (fst (has P (Some k) w) = false
     ∧ fst (remove P (Some k) w) = false
     ∧ notifications (snd (remove P (Some k) w)) = notifications w
     ∧ notifications (clear P w) = notifications w
     ∧ fst (count P w) = O)
  ∧ (∀ w0 k0 p0, unlocked w0 ->
       one_attempt P w0 (snd (send P (Some k0) p0 w0))
       ∧ one_attempt P w0 (snd (has P (Some k0) w0))
       ∧ one_attempt P w0 (snd (remove P (Some k0) w0))
       ∧ one_attempt P w0 (clear P w0)
       ∧ one_attempt P w0 (snd (count P w0))).
Proof.
  intros Hu Hg.
  destruct (refused_results P k p 0 w Hu Hg) as (-> & _ & -> & _ & -> & -> & ->).
  split; [done|]. split; [done|].
  intros w0 k0 p0 Hu0. by apply single_attempt.
Qed.

Lemma lock_failure_is_atomic_witness :
  (fst (send busy (Some "status"%string) 4096 fresh) = false
   ∧ notifications (snd (send busy (Some "status"%string) 4096 fresh))
     = notifications fresh
   ∧ unlocked (snd (send busy (Some "status"%string) 4096 fresh)))
  ∧ (fst (has busy (Some "status"%string) fresh) = false
     ∧ fst (remove busy (Some "status"%string) fresh) = false
     ∧ notifications (snd (remove busy (Some "status"%string) fresh))
       = notifications fresh
     ∧ notifications (clear busy fresh) = notifications fresh
     ∧ fst (count busy fresh) = O)
  ∧ (∀ w0 k0 p0, unlocked w0 ->
       one_attempt busy w0 (snd (send busy (Some k0) p0 w0))
       ∧ one_attempt busy w0 (snd (has busy (Some k0) w0))
       ∧ one_attempt busy w0 (snd (remove busy (Some k0) w0))
       ∧ one_attempt busy w0 (clear busy w0)
       ∧ one_attempt busy w0 (snd (count busy w0))).
Proof.
  apply (lock_failure_is_atomic busy "status"%string 4096 fresh).
  - reflexivity.
  - unfold granted. vm_compute. intros H. apply H. reflexivity.
Defined.

(** ** A store without mutex *)

Section Lockless.

Variable P : Platform.

(** Every operation that tests the handle on entry returns its failure value
    at once and leaves the world as it is. *)
Lemma lockless_fail_closed fuel key p v t w :
  mutex w = None ->
  send P key p w = (false, w)
  ∧ send_signal P key v w = (false, w)
  ∧ consume P fuel key t w = Some (Init nullptr, w)
  ∧ signal P fuel key t w = Some (Init (-1), w)
  ∧ has P key w = (false, w)
  ∧ hasSignal P key w = (false, w)
  ∧ remove P key w = (false, w)
  ∧ clear P w = w
  ∧ count P w = (O, w).
Proof.
  intros Hm.
  unfold send, send_signal, consume, signal, has, hasSignal, remove, clear, count.
  rewrite Hm. repeat split.
Qed.

(** [wait] does not test the handle: it polls [has] until the timeout has
    passed.  When it returns, it returns false, with the map untouched and
    no take made, but not before [t] ticks have gone by. *)
Lemma wait_lockless_result k t u0 fuel :
  ∀ w r w',
    mutex w = None -> u0 <= uptime w ->
    wait_loop P fuel (Some k) t (u0 mod TickType_modulus) w = Some (r, w') ->
    r = false ∧ notifications w' = notifications w ∧ takes w' = takes w
    ∧ t <= uptime w' - u0.
Proof.
  induction fuel as [|fuel IH]; intros w r w' Hm Hle; [discriminate|].
  cbn [wait_loop]. unfold has. rewrite Hm.
  destruct (Z.leb_spec t
    ((xTaskGetTickCount w - u0 mod TickType_modulus) mod TickType_modulus))
    as [Hret|Hgo].
  - intros [= <- <-]. repeat split.
    unfold xTaskGetTickCount in Hret. pose proof (elapsed_le u0 (uptime w)). lia.
  - intros Hrun. apply IH in Hrun; [exact Hrun|exact Hm|].
    unfold vTaskDelay. cbn [uptime].
    pose proof (pdMS_TO_TICKS_range P 10). lia.
Qed.

End Lockless.

(** With the 1 kHz tick and a scheduler that is on time, the elapsed time that
    [wait] computes on a store without mutex keeps the parity it starts
    with, so it never reaches the odd number [portMAX_DELAY]. *)
Lemma wait_loop_lockless_spins k m u0 tk fuel :
  ∀ u sl,
    (u - u0) mod 2 = 0 ->
    wait_loop quiet fuel (Some k) portMAX_DELAY (u0 mod TickType_modulus)
      (lockless m u tk sl) = None.
Proof.
  induction fuel as [|fuel IH]; intros u sl Hpar; [reflexivity|].
  cbn [wait_loop]. unfold has. cbn [mutex lockless].
  change (xTaskGetTickCount (lockless m u tk sl)) with (u mod TickType_modulus).
  assert (Hlt : (u mod TickType_modulus - u0 mod TickType_modulus) mod TickType_modulus
                < portMAX_DELAY).
  { rewrite <- Zminus_mod. unfold TickType_modulus, portMAX_DELAY.
    change (2 ^ 32) with 4294967296.
    pose proof (Z.mod_pos_bound (u - u0) 4294967296 eq_refl).
    pose proof (Z.div_mod (u - u0) 4294967296).
    pose proof (Z.div_mod (u - u0) 2). lia. }
  apply Z.leb_gt in Hlt. rewrite Hlt.
  change (vTaskDelay quiet (pdMS_TO_TICKS quiet 10) (lockless m u tk sl))
    with (lockless m (u + 10 + 0) tk (S sl)).
  apply IH.
  replace (u + 10 + 0 - u0) with (u - u0 + 5 * 2) by lia.
  by rewrite Z.mod_add.
Qed.

(** C5 on the code: on a store whose mutex was never created, with the 1 kHz
    tick, [wait(k, portMAX_DELAY)] does not return, whatever the number of
    polls. *)
Theorem wait_without_mutex_never_returns :
  ∀ fuel k m u tk sl,
    wait quiet fuel (Some k) portMAX_DELAY (lockless m u tk sl) = None.
Proof.
  intros fuel k m u tk sl. unfold wait.
  change (xTaskGetTickCount (lockless m u tk sl)) with (u mod TickType_modulus).
  apply wait_loop_lockless_spins. by rewrite Z.sub_diag.
Qed.

(** * Further properties of the store *)

(** ** The operations that take the mutex once *)

Section Granted.

Variable P : Platform.

Lemma has_granted k w :
  unlocked w -> granted P (pdMS_TO_TICKS P 100) w ->
  has P (Some k) w
  = (bool_decide (is_Some (notifications w !! k)), after_lock P (notifications w) w).
Proof.
  intros Hu Hg. unfold has. by rewrite Hu, (take_granted P _ w Hu Hg).
Qed.

Lemma remove_granted k w :
  unlocked w -> granted P (pdMS_TO_TICKS P 100) w ->
  remove P (Some k) w
  = (bool_decide (is_Some (notifications w !! k)),
     after_lock P (delete k (notifications w)) w).
Proof.
  intros Hu Hg. unfold remove. rewrite Hu, (take_granted P _ w Hu Hg).
  cbn [negb notifications]. destruct (notifications w !! k) as [it|] eqn:E.
  - rewrite bool_decide_eq_true_2 by eauto. reflexivity.
  - rewrite bool_decide_eq_false_2 by (intros [? ?]; discriminate).
    rewrite (delete_id _ _ E). reflexivity.
Qed.

Lemma clear_granted w :
  unlocked w -> granted P (pdMS_TO_TICKS P 100) w ->
  clear P w = after_lock P ∅ w.
Proof.
  intros Hu Hg. unfold clear. by rewrite Hu, (take_granted P _ w Hu Hg).
Qed.

Lemma count_granted w :
  unlocked w -> granted P (pdMS_TO_TICKS P 100) w ->
  count P w = (size (notifications w), after_lock P (notifications w) w).
Proof.
  intros Hu Hg. unfold count. by rewrite Hu, (take_granted P _ w Hu Hg).
Qed.

End Granted.

(** X1. A send that succeeds writes the entry of its own key and no other:
    every other key has the entry it had, for both overloads. *)
Theorem send_touches_one_key P k k' p v w w1 w1' :
  send P (Some k) p w = (true, w1) ->
  send_signal P (Some k) v w = (true, w1') ->
  k' ≠ k ->
  notifications w1 !! k' = notifications w !! k'
  ∧ notifications w1' !! k' = notifications w !! k'.
Proof.
  intros Hs Hs' Hne. destruct (send_true_inv P _ _ _ _ Hs) as [Hu Hg].
  rewrite (send_granted P k p w Hu Hg) in Hs. injection Hs as <-.
  rewrite (send_signal_granted P k v w Hu Hg) in Hs'. injection Hs' as <-.
  cbn [after_lock notifications]. by rewrite !lookup_insert_ne.
Qed.

Lemma send_touches_one_key_witness :
  let w := snd (send quiet (Some "humidity"%string) 8192 fresh) in
  notifications (snd (send quiet (Some "temperature"%string) 4096 w)) !! "humidity"%string
  = notifications w !! "humidity"%string
  ∧ notifications (snd (send_signal quiet (Some "temperature"%string) 3 w))
      !! "humidity"%string
    = notifications w !! "humidity"%string.
Proof.
  apply (send_touches_one_key quiet "temperature"%string "humidity"%string 4096 3
           (snd (send quiet (Some "humidity"%string) 8192 fresh))).
  - reflexivity.
  - reflexivity.
  - discriminate.
Defined.

(** X2. [count] after a successful send: one more than before when the key
    had no entry, the same as before when it had one. *)
Theorem count_after_send P k p w w1 :
  send P (Some k) p w = (true, w1) ->
  granted P (pdMS_TO_TICKS P 100) w1 ->
  fst (count P w1)
  = if bool_decide (is_Some (notifications w !! k))
    then size (notifications w)
    else S (size (notifications w)).
Proof.
  intros Hs Hg1. destruct (send_true_inv P _ _ _ _ Hs) as [Hu Hg].
  rewrite (send_granted P k p w Hu Hg) in Hs. injection Hs as <-.
  rewrite count_granted by done. cbn [fst after_lock notifications].
  destruct (notifications w !! k) as [it|] eqn:E.
  - rewrite bool_decide_eq_true_2 by eauto. apply map_size_insert_Some. eauto.
  - rewrite bool_decide_eq_false_2 by (intros [? ?]; discriminate).
    by apply map_size_insert_None.
Qed.

Lemma count_after_send_witness :
  fst (count quiet (snd (send quiet (Some "status"%string) 4096 fresh)))
  = if bool_decide (is_Some (notifications fresh !! "status"%string))
    then size (notifications fresh)
    else S (size (notifications fresh)).
Proof.
  apply (count_after_send quiet "status"%string 4096 fresh).
  - reflexivity.
  - apply Z.leb_le. vm_compute. reflexivity.
Defined.

(** X3. [remove] with the mutex: the result tells whether the key had an
    entry, the map afterwards is the old map without the key, and removing
    the same key again reports that nothing was there. *)
Theorem remove_reports_presence P k w :
  unlocked w ->
  granted P (pdMS_TO_TICKS P 100) w ->
  Z.of_N (lock_latency P (S (takes w))) <= pdMS_TO_TICKS P 100 ->
  fst (remove P (Some k) w) = bool_decide (is_Some (notifications w !! k))
  ∧ notifications (snd (remove P (Some k) w)) = delete k (notifications w)
  ∧ fst (remove P (Some k) (snd (remove P (Some k) w))) = false
  ∧ fst (has P (Some k) (snd (remove P (Some k) w))) = false.
Proof.
  intros Hu Hg Hg1. rewrite (remove_granted P k w Hu Hg). cbn [fst snd].
  split; [done|]. split; [done|].
  rewrite remove_granted, has_granted by done. cbn [fst after_lock notifications].
  rewrite lookup_delete_eq.
  split; apply bool_decide_eq_false_2; intros [? ?]; discriminate.
Qed.

Lemma remove_reports_presence_witness :
  let w := snd (send quiet (Some "old_notification"%string) 4096 fresh) in
  fst (remove quiet (Some "old_notification"%string) w)
  = bool_decide (is_Some (notifications w !! "old_notification"%string))
  ∧ notifications (snd (remove quiet (Some "old_notification"%string) w))
    = delete "old_notification"%string (notifications w)
  ∧ fst (remove quiet (Some "old_notification"%string)
           (snd (remove quiet (Some "old_notification"%string) w))) = false
  ∧ fst (has quiet (Some "old_notification"%string)
           (snd (remove quiet (Some "old_notification"%string) w))) = false.
Proof.
  apply (remove_reports_presence quiet "old_notification"%string
           (snd (send quiet (Some "old_notification"%string) 4096 fresh))).
  - reflexivity.
  - apply Z.leb_le. vm_compute. reflexivity.
  - apply Z.leb_le. vm_compute. reflexivity.
Defined.

(** X4. [clear] with the mutex empties the map; [count] is then zero and
    [has] is false for every key, with the mutex or without it. *)
Theorem clear_empties P w :
  unlocked w ->
  granted P (pdMS_TO_TICKS P 100) w ->
  notifications (clear P w) = ∅
  ∧ fst (count P (clear P w)) = O
  ∧ ∀ key, fst (has P key (clear P w)) = false.
Proof.
  intros Hu Hg. rewrite (clear_granted P w Hu Hg). split; [done|].
  set (w1 := after_lock P ∅ w). assert (Hu1 : unlocked w1) by done. split.
  - destruct (decide (granted P (pdMS_TO_TICKS P 100) w1)) as [Hg1|Hg1].
    + by rewrite count_granted.
    + by destruct (refused_results P ""%string 0 0 w1 Hu1 Hg1) as (_&_&_&_&_&_& ->).
  - intros [k|]; [|by unfold has; destruct (mutex w1)].
    destruct (decide (granted P (pdMS_TO_TICKS P 100) w1)) as [Hg1|Hg1].
    + rewrite has_granted by done. cbn [fst w1 after_lock notifications].
      rewrite lookup_empty. apply bool_decide_eq_false_2. intros [? ?]; discriminate.
    + by destruct (refused_results P k 0 0 w1 Hu1 Hg1) as (_&_& -> &_).
Qed.

Lemma clear_empties_witness :
  let w := snd (send quiet (Some "status"%string) 4096 fresh) in
  notifications (clear quiet w) = ∅
  ∧ fst (count quiet (clear quiet w)) = O
  ∧ ∀ key, fst (has quiet key (clear quiet w)) = false.
Proof.
  apply (clear_empties quiet (snd (send quiet (Some "status"%string) 4096 fresh))).
  - reflexivity.
  - apply Z.leb_le. vm_compute. reflexivity.
Defined.

(** X5. [has] answers true only for a non-null key that has an entry, and only
    when it got the mutex; the map is then as it was. *)
Theorem has_is_sound P key w :
  fst (has P key w) = true ->
  notifications (snd (has P key w)) = notifications w
  ∧ ∃ k, key = Some k ∧ is_Some (notifications w !! k)
         ∧ unlocked w ∧ granted P (pdMS_TO_TICKS P 100) w.
Proof.
  unfold has. destruct (mutex w) as [h|] eqn:Hm; [|discriminate].
  destruct key as [k|]; [|discriminate].
  destruct (xSemaphoreTake P (pdMS_TO_TICKS P 100) w) as [[] w1] eqn:Ht;
    [|discriminate].
  destruct (take_true_inv P _ _ _ Ht) as [Hu Hg].
  rewrite (take_granted P _ w Hu Hg) in Ht. injection Ht as <-.
  cbn. intros Hb. apply bool_decide_eq_true_1 in Hb. split; [done|].
  exists k. done.
Qed.

Lemma has_is_sound_witness :
  let w := snd (send quiet (Some "temperature"%string) 4096 fresh) in
  notifications (snd (has quiet (Some "temperature"%string) w)) = notifications w
  ∧ ∃ k, Some "temperature"%string = Some k ∧ is_Some (notifications w !! k)
         ∧ unlocked w ∧ granted quiet (pdMS_TO_TICKS quiet 100) w.
Proof.
  apply (has_is_sound quiet (Some "temperature"%string)
           (snd (send quiet (Some "temperature"%string) 4096 fresh))).
  reflexivity.
Defined.

(** ** What a polling call can return *)

Section LoopResults.

Variable P : Platform.

(** Closes the two ways out of one poll that found nothing: the timeout has
    passed, or the loop goes round again. *)
Ltac poll_tail IH u0 Hret Hrun :=
  match goal with
  | |- context [?t <=? ?e] => destruct (Z.leb_spec t e) as [Hret|_]
  end;
  [ intros [= <- <-]; split; [done|]; right;
    unfold xTaskGetTickCount, xSemaphoreGive in Hret |- *;
    cbn [uptime notifications] in Hret |- *;
    match type of Hret with
    | _ <= (?u mod _ - _) mod _ => pose proof (elapsed_le u0 u)
    end;
    split; [done|]; split; [done|]; lia
  | intros Hrun; apply IH in Hrun;
    [ destruct Hrun as [? Hrun]; split; [done|];
      cbn [vTaskDelay xSemaphoreGive notifications] in Hrun;
      destruct Hrun as [(it' & Hit & ? & ?)|?];
      [ first [congruence | left; exists it'; done] | right; done ]
    | done
    | unfold vTaskDelay, xSemaphoreGive; cbn [uptime sleeps]; lia ] ].

Lemma consume_loop_result k T u0 fuel :
  ∀ w r w',
    unlocked w -> u0 <= uptime w ->
    consume_loop P fuel k T (u0 mod TickType_modulus) w = Some (r, w') ->
    unlocked w'
    ∧ ((∃ it, notifications w !! k = Some it ∧ r = NotificationItem.data it
              ∧ notifications w' = delete k (notifications w))
       ∨ (r = Init nullptr ∧ notifications w' = notifications w
          ∧ T <= uptime w' - u0)).
Proof.
  induction fuel as [|fuel IH]; intros w r w' Hu Hle; [discriminate|].
  cbn [consume_loop].
  pose proof (pdMS_TO_TICKS_range P 10) as Hb.
  pose proof (pdMS_TO_TICKS_range P 1) as Hd.
  destruct (decide (granted P (pdMS_TO_TICKS P 10) w)) as [Hg|Hg].
  - rewrite (take_granted P _ w Hu Hg). cbn [notifications].
    destruct (notifications w !! k) as [it|] eqn:E.
    + intros [= <- <-]. split; [done|]. left. by exists it.
    + poll_tail IH u0 Hret Hrun.
  - rewrite (take_refused P _ w Hu Hg). poll_tail IH u0 Hret Hrun.
Qed.

Lemma signal_loop_result k T u0 fuel :
  ∀ w r w',
    unlocked w -> u0 <= uptime w ->
    signal_loop P fuel k T (u0 mod TickType_modulus) w = Some (r, w') ->
    unlocked w'
    ∧ ((∃ it, notifications w !! k = Some it ∧ r = NotificationItem.signal it
              ∧ notifications w' = delete k (notifications w))
       ∨ (r = Init (-1) ∧ notifications w' = notifications w
          ∧ T <= uptime w' - u0)).
Proof.
  induction fuel as [|fuel IH]; intros w r w' Hu Hle; [discriminate|].
  cbn [signal_loop].
  pose proof (pdMS_TO_TICKS_range P 0) as Hb.
  pose proof (pdMS_TO_TICKS_range P 1) as Hd.
  destruct (decide (granted P (pdMS_TO_TICKS P 0) w)) as [Hg|Hg].
  - rewrite (take_granted P _ w Hu Hg). cbn [notifications].
    destruct (notifications w !! k) as [it|] eqn:E.
    + intros [= <- <-]. split; [done|]. left. by exists it.
    + poll_tail IH u0 Hret Hrun.
  - rewrite (take_refused P _ w Hu Hg). poll_tail IH u0 Hret Hrun.
Qed.

Lemma wait_loop_result k T u0 fuel :
  ∀ w r w',
    unlocked w -> u0 <= uptime w ->
    wait_loop P fuel (Some k) T (u0 mod TickType_modulus) w = Some (r, w') ->
    unlocked w' ∧ notifications w' = notifications w
    ∧ ((r = true ∧ is_Some (notifications w !! k))
       ∨ (r = false ∧ T <= uptime w' - u0)).
Proof.
  induction fuel as [|fuel IH]; intros w r w' Hu Hle; [discriminate|].
  cbn [wait_loop].
  pose proof (pdMS_TO_TICKS_range P 100) as Hb.
  pose proof (pdMS_TO_TICKS_range P 10) as Hd.
  assert (Hstep : ∀ w2 : World,
    unlocked w2 -> notifications w2 = notifications w -> uptime w <= uptime w2 ->
    (if T <=? (xTaskGetTickCount w2 - u0 mod TickType_modulus) mod TickType_modulus
     then Some (false, w2)
     else wait_loop P fuel (Some k) T (u0 mod TickType_modulus)
            (vTaskDelay P (pdMS_TO_TICKS P 10) w2)) = Some (r, w') ->
    unlocked w' ∧ notifications w' = notifications w
    ∧ ((r = true ∧ is_Some (notifications w !! k))
       ∨ (r = false ∧ T <= uptime w' - u0))).
  { intros w2 Hu2 Hm2 Hle2.
    destruct (Z.leb_spec T
      ((xTaskGetTickCount w2 - u0 mod TickType_modulus) mod TickType_modulus))
      as [Hret|_].
    - intros [= <- <-]. split; [done|]. split; [done|]. right. split; [done|].
      unfold xTaskGetTickCount in Hret. pose proof (elapsed_le u0 (uptime w2)). lia.
    - intros Hrun. apply IH in Hrun; [|done|unfold vTaskDelay; cbn [uptime]; lia].
      destruct Hrun as (Hu' & Hm' & Hcase). split; [done|].
      cbn [vTaskDelay notifications] in Hm', Hcase. rewrite Hm2 in Hm', Hcase.
      done. }
  destruct (decide (granted P (pdMS_TO_TICKS P 100) w)) as [Hg|Hg].
  - rewrite (has_granted P k w Hu Hg).
    destruct (bool_decide (is_Some (notifications w !! k))) eqn:Hb'.
    + intros [= <- <-]. split; [done|]. split; [done|]. left.
      split; [done|]. by apply bool_decide_eq_true in Hb'.
    + apply Hstep; [done|done|]. unfold granted in Hg. cbn [after_lock uptime]. lia.
  - destruct (refused_results P k 0 0 w Hu Hg) as (_ & _ & -> & _).
    apply Hstep; [done|done|]. cbn [refused uptime]. lia.
Qed.

End LoopResults.

(** X6. Whatever the contention and the timeout, a [consume] that returns did
    one of two things: it returned the [data] member of the entry the key
    had and erased that entry and nothing else, or it returned the null
    pointer, left the map as it was, and at least the timeout had passed. *)
Theorem consume_returns_entry_or_times_out P k T w fuel r w' :
  unlocked w ->
  consume P fuel (Some k) T w = Some (r, w') ->
  (∃ it, notifications w !! k = Some it ∧ r = NotificationItem.data it
         ∧ notifications w' = delete k (notifications w))
  ∨ (r = Init nullptr ∧ notifications w' = notifications w
     ∧ T <= uptime w' - uptime w).
Proof.
  intros Hu. unfold consume. rewrite Hu. intros Hrun.
  apply consume_loop_result in Hrun; [|done|lia]. by destruct Hrun.
Qed.

Lemma consume_returns_entry_or_times_out_witness :
  let w := snd (send quiet (Some "temperature"%string) 4096 fresh) in
  let w' := mkWorld ∅ (Some false) 0 2 0 in
  (∃ it, notifications w !! "temperature"%string = Some it
         ∧ Init 4096 = NotificationItem.data it
         ∧ notifications w' = delete "temperature"%string (notifications w))
  ∨ (Init 4096 = Init nullptr ∧ notifications w' = notifications w
     ∧ 1000 <= uptime w' - uptime w).
Proof.
  apply (consume_returns_entry_or_times_out quiet "temperature"%string 1000
           (snd (send quiet (Some "temperature"%string) 4096 fresh)) 1).
  - reflexivity.
  - vm_compute. reflexivity.
Defined.

(** X7. The same for [signal]: it returns the [signal] member of the entry and
    erases it, or [-1] with the map untouched once the timeout has passed. *)
Theorem signal_returns_entry_or_times_out P k T w fuel r w' :
  unlocked w ->
  signal P fuel (Some k) T w = Some (r, w') ->
  (∃ it, notifications w !! k = Some it ∧ r = NotificationItem.signal it
         ∧ notifications w' = delete k (notifications w))
  ∨ (r = Init (-1) ∧ notifications w' = notifications w
     ∧ T <= uptime w' - uptime w).
Proof.
  intros Hu. unfold signal. rewrite Hu. intros Hrun.
  apply signal_loop_result in Hrun; [|done|lia]. by destruct Hrun.
Qed.

Lemma signal_returns_entry_or_times_out_witness :
  let w := snd (send_signal quiet (Some "counter"%string) 7 fresh) in
  let w' := mkWorld ∅ (Some false) 0 2 0 in
  (∃ it, notifications w !! "counter"%string = Some it
         ∧ Init 7 = NotificationItem.signal it
         ∧ notifications w' = delete "counter"%string (notifications w))
  ∨ (Init 7 = Init (-1) ∧ notifications w' = notifications w
     ∧ 1000 <= uptime w' - uptime w).
Proof.
  apply (signal_returns_entry_or_times_out quiet "counter"%string 1000
           (snd (send_signal quiet (Some "counter"%string) 7 fresh)) 1).
  - reflexivity.
  - vm_compute. reflexivity.
Defined.

(** X8. [wait] never changes the map.  It returns true only when the key has
    an entry, and false only when at least the timeout has passed. *)
Theorem wait_observes_only P k T w fuel r w' :
  unlocked w ->
  wait P fuel (Some k) T w = Some (r, w') ->
  notifications w' = notifications w
  ∧ ((r = true ∧ is_Some (notifications w !! k))
     ∨ (r = false ∧ T <= uptime w' - uptime w)).
Proof.
  intros Hu. unfold wait. intros Hrun.
  apply wait_loop_result in Hrun; [|done|lia]. by destruct Hrun.
Qed.

Lemma wait_observes_only_witness :
  let w' := mkWorld ∅ (Some false) 30 4 3 in
  notifications w' = notifications fresh
  ∧ ((false = true ∧ is_Some (notifications fresh !! "ready"%string))
     ∨ (false = false ∧ 30 <= uptime w' - uptime fresh)).
Proof.
  apply (wait_observes_only quiet "ready"%string 30 fresh 4).
  - reflexivity.
  - vm_compute. reflexivity.
Defined.

(** X9. Every operation gives the mutex back: started on a store whose mutex
    the caller does not hold, each call ends with the mutex not held, on
    success, on lock failure and on timeout alike. *)
Theorem mutex_released_on_return P key p v w :
  unlocked w ->
  unlocked (snd (send P key p w))
  ∧ unlocked (snd (send_signal P key v w))
  ∧ unlocked (snd (has P key w))
  ∧ unlocked (snd (hasSignal P key w))
  ∧ unlocked (snd (remove P key w))
  ∧ unlocked (clear P w)
  ∧ unlocked (snd (count P w))
  ∧ (∀ fuel T r w', consume P fuel key T w = Some (r, w') -> unlocked w')
  ∧ (∀ fuel T r w', signal P fuel key T w = Some (r, w') -> unlocked w')
  ∧ (∀ fuel T r w', wait P fuel key T w = Some (r, w') -> unlocked w').
Proof.
  intros Hu.
  assert (Hloops :
    (∀ fuel T r w', consume P fuel key T w = Some (r, w') -> unlocked w')
    ∧ (∀ fuel T r w', signal P fuel key T w = Some (r, w') -> unlocked w')
    ∧ (∀ fuel T r w', wait P fuel key T w = Some (r, w') -> unlocked w')).
  { unfold consume, signal, wait. rewrite Hu. destruct key as [k|].
    - split; [|split]; intros fuel T r w' Hrun.
      + apply consume_loop_result in Hrun; [by destruct Hrun|done|lia].
      + apply signal_loop_result in Hrun; [by destruct Hrun|done|lia].
      + apply wait_loop_result in Hrun; [by destruct Hrun|done|lia].
    - split; [|split]; by intros fuel T r w' [= <- <-]. }
  destruct key as [k|].
  - unfold send, send_signal, has, hasSignal, remove, clear, count. rewrite Hu.
    destruct (locked_op_cases P w Hu) as [[Hg ->]|[Hg ->]]; cbn [negb snd].
    + repeat split; try apply Hloops. by destruct (notifications _ !! k).
    + repeat split; apply Hloops.
  - unfold send, send_signal, has, hasSignal, remove. rewrite Hu. cbn [snd].
    unfold clear, count. rewrite Hu.
    destruct (locked_op_cases P w Hu) as [[Hg ->]|[Hg ->]]; cbn [negb snd];
      repeat split; first [done | apply Hloops].
Qed.

Lemma mutex_released_on_return_witness :
  unlocked (snd (send busy (Some "status"%string) 4096 fresh))
  ∧ unlocked (snd (send_signal busy (Some "status"%string) 7 fresh))
  ∧ unlocked (snd (has busy (Some "status"%string) fresh))
  ∧ unlocked (snd (hasSignal busy (Some "status"%string) fresh))
  ∧ unlocked (snd (remove busy (Some "status"%string) fresh))
  ∧ unlocked (clear busy fresh)
  ∧ unlocked (snd (count busy fresh))
  ∧ (∀ fuel T r w',
       consume busy fuel (Some "status"%string) T fresh = Some (r, w') -> unlocked w')
  ∧ (∀ fuel T r w',
       signal busy fuel (Some "status"%string) T fresh = Some (r, w') -> unlocked w')
  ∧ (∀ fuel T r w',
       wait busy fuel (Some "status"%string) T fresh = Some (r, w') -> unlocked w').
Proof.
  apply (mutex_released_on_return busy (Some "status"%string) 4096 7 fresh).
  reflexivity.
Defined.

(** ** Signals *)

(** X10. The integer round trip: after a successful [send(k, v)], a [signal]
    that finds the mutex free at once returns [v], for every [v], the
    sentinel included, and erases the entry; a second [signal(k, 0)] returns
    [-1]. *)
Theorem send_signal_roundtrip P k v t w w1 fuel fuel' :
  send_signal P (Some k) v w = (true, w1) ->
  granted P (pdMS_TO_TICKS P 0) w1 ->
  ∃ w2 w3,
    signal P (S fuel) (Some k) t w1 = Some (Init v, w2)
    ∧ notifications w2 = delete k (notifications w1)
    ∧ signal P (S fuel') (Some k) 0 w2 = Some (Init (-1), w3)
    ∧ notifications w3 = notifications w2.
Proof.
  intros Hs Hg. destruct (send_signal_true_inv P _ _ _ _ Hs) as [Hu Hg0].
  rewrite (send_signal_granted P k v w Hu Hg0) in Hs. injection Hs as <-.
  set (w1 := after_lock P _ w) in *.
  assert (Hk : notifications w1 !! k = Some (NotificationItem.of_signal v (stamp P w)))
    by apply lookup_insert_eq.
  assert (Hu1 : unlocked w1) by done.
  rewrite (signal_found P fuel k t _ w1 Hu1 Hg Hk).
  set (w2 := after_lock P _ w1).
  assert (Hk2 : notifications w2 !! k = None) by apply lookup_delete_eq.
  assert (Hu2 : unlocked w2) by done.
  exists w2. unfold signal. rewrite Hu2, (signal_loop_miss P fuel' k 0 _ w2 Hu2 Hk2).
  cbv zeta. rewrite (proj2 (Z.leb_le _ _) (elapsed_nonneg _ _)).
  eexists. done.
Qed.

Lemma send_signal_roundtrip_witness :
  ∃ w2 w3,
    signal quiet 1 (Some "counter"%string) 100
      (snd (send_signal quiet (Some "counter"%string) (-1) fresh)) = Some (Init (-1), w2)
    ∧ notifications w2
      = delete "counter"%string
          (notifications (snd (send_signal quiet (Some "counter"%string) (-1) fresh)))
    ∧ signal quiet 1 (Some "counter"%string) 0 w2 = Some (Init (-1), w3)
    ∧ notifications w3 = notifications w2.
Proof.
  apply (send_signal_roundtrip quiet "counter"%string (-1) 100 fresh).
  - reflexivity.
  - apply Z.leb_le. vm_compute. reflexivity.
Defined.

(** X11. [signal] on an entry made by the pointer [send] takes the branch of a
    found key as well: it erases the entry and returns the [signal] member,
    which the pointer constructor never wrote; the payload can no longer be
    consumed. *)
Theorem signal_takes_pointer_entry P k p t w w1 fuel fuel' :
  send P (Some k) p w = (true, w1) ->
  granted P (pdMS_TO_TICKS P 0) w1 ->
  ∃ w2 w3,
    signal P (S fuel) (Some k) t w1 = Some (Indeterminate, w2)
    ∧ notifications w2 = delete k (notifications w)
    ∧ consume P (S fuel') (Some k) 0 w2 = Some (Init nullptr, w3).
Proof.
  intros Hs Hg. destruct (send_true_inv P _ _ _ _ Hs) as [Hu Hg0].
  rewrite (send_granted P k p w Hu Hg0) in Hs. injection Hs as <-.
  set (w1 := after_lock P _ w) in *.
  assert (Hk : notifications w1 !! k = Some (NotificationItem.of_data p (stamp P w)))
    by apply lookup_insert_eq.
  assert (Hu1 : unlocked w1) by done.
  rewrite (signal_found P fuel k t _ w1 Hu1 Hg Hk).
  set (w2 := after_lock P _ w1).
  assert (Hk2 : notifications w2 !! k = None) by apply lookup_delete_eq.
  destruct (consume_absent_now P fuel' k w2) as (w3 & H3 & _); [done..|].
  exists w2, w3. split; [done|]. split; [|done].
  cbn [w2 w1 after_lock notifications]. by rewrite delete_insert_eq.
Qed.

Lemma signal_takes_pointer_entry_witness :
  ∃ w2 w3,
    signal quiet 1 (Some "status"%string) 100
      (snd (send quiet (Some "status"%string) 4096 fresh)) = Some (Indeterminate, w2)
    ∧ notifications w2 = delete "status"%string (notifications fresh)
    ∧ consume quiet 1 (Some "status"%string) 0 w2 = Some (Init nullptr, w3).
Proof.
  apply (signal_takes_pointer_entry quiet "status"%string 4096 100 fresh).
  - reflexivity.
  - apply Z.leb_le. vm_compute. reflexivity.
Defined.

(** X12. The two overloads share the key space and the last send decides the
    variant: a pointer sent over a signal is consumed as that pointer, and a
    signal sent over a pointer is read as that signal. *)
Theorem last_send_decides_variant P k p v t w fuel :
  unlocked w ->
  granted P (pdMS_TO_TICKS P 100) w ->
  Z.of_N (lock_latency P (S (takes w))) <= pdMS_TO_TICKS P 100 ->
  Z.of_N (lock_latency P (S (S (takes w)))) <= pdMS_TO_TICKS P 0 ->
  fst <$> consume P (S fuel) (Some k) t
            (snd (send P (Some k) p (snd (send_signal P (Some k) v w))))
  = Some (Init p)
  ∧ fst <$> signal P (S fuel) (Some k) t
              (snd (send_signal P (Some k) v (snd (send P (Some k) p w))))
    = Some (Init v).
Proof.
  intros Hu Hg Hg1 Hg2.
  pose proof (pdMS_TO_TICKS_range P 10).
  assert (H0 : pdMS_TO_TICKS P 0 = 0) by reflexivity.
  rewrite (send_signal_granted P k v w Hu Hg), (send_granted P k p w Hu Hg).
  cbn [snd].
  set (ws := after_lock P (<[k := NotificationItem.of_signal v (stamp P w)]> _) w).
  set (wp := after_lock P (<[k := NotificationItem.of_data p (stamp P w)]> _) w).
  rewrite (send_granted P k p ws), (send_signal_granted P k v wp) by done.
  cbn [snd]. split.
  - rewrite (consume_found P fuel k t (NotificationItem.of_data p (stamp P ws)));
      [reflexivity|done| |apply lookup_insert_eq].
    unfold granted, ws. cbn [after_lock takes]. lia.
  - rewrite (signal_found P fuel k t (NotificationItem.of_signal v (stamp P wp)));
      [reflexivity|done|exact Hg2|apply lookup_insert_eq].
Qed.

Lemma last_send_decides_variant_witness :
  fst <$> consume quiet 1 (Some "k"%string) 100
            (snd (send quiet (Some "k"%string) 4096
                    (snd (send_signal quiet (Some "k"%string) 7 fresh))))
  = Some (Init 4096)
  ∧ fst <$> signal quiet 1 (Some "k"%string) 100
              (snd (send_signal quiet (Some "k"%string) 7
                      (snd (send quiet (Some "k"%string) 4096 fresh))))
    = Some (Init 7).
Proof.
  apply (last_send_decides_variant quiet "k"%string 4096 7 100 fresh 0).
  - reflexivity.
  - apply Z.leb_le. vm_compute. reflexivity.
  - apply Z.leb_le. vm_compute. reflexivity.
  - apply Z.leb_le. vm_compute. reflexivity.
Defined.

(** ** Waiting, polling once, and contention *)

Section Contention.

Variable P : Platform.

(** A poll of [consume] that does not get the mutex. *)
Lemma consume_loop_refused fuel k T start w :
  unlocked w -> ¬ granted P (pdMS_TO_TICKS P 10) w ->
  consume_loop P (S fuel) k T start w =
    let w2 := mkWorld (notifications w) (Some false)
                (uptime w + pdMS_TO_TICKS P 10) (S (takes w)) (sleeps w) in
    if T <=? (xTaskGetTickCount w2 - start) mod TickType_modulus
    then Some (Init nullptr, w2)
    else consume_loop P fuel k T start (vTaskDelay P (pdMS_TO_TICKS P 1) w2).
Proof.
  intros Hu Hg. cbn [consume_loop]. by rewrite (take_refused P _ w Hu Hg).
Qed.

End Contention.

(** X13. [wait] on a key that has an entry returns true at the first poll,
    without sleeping and without touching the map; the entry is still there
    for the [consume] that follows, which returns its payload and erases
    it. *)
Theorem wait_then_consume P k T t it w fuel fuel' :
  unlocked w ->
  granted P (pdMS_TO_TICKS P 100) w ->
  Z.of_N (lock_latency P (S (takes w))) <= pdMS_TO_TICKS P 10 ->
  notifications w !! k = Some it ->
  ∃ w1 w2,
    wait P (S fuel) (Some k) T w = Some (true, w1)
    ∧ notifications w1 = notifications w
    ∧ sleeps w1 = sleeps w
    ∧ consume P (S fuel') (Some k) t w1 = Some (NotificationItem.data it, w2)
    ∧ notifications w2 = delete k (notifications w).
Proof.
  intros Hu Hg Hg1 Hk.
  exists (after_lock P (notifications w) w). eexists.
  split.
  { unfold wait. cbn [wait_loop]. rewrite (has_granted P k w Hu Hg).
    by rewrite bool_decide_eq_true_2 by eauto. }
  split; [done|]. split; [done|].
  split; [by apply consume_found|done].
Qed.

Lemma wait_then_consume_witness :
  let w := snd (send quiet (Some "ready"%string) 4096 fresh) in
  ∃ w1 w2,
    wait quiet 1 (Some "ready"%string) 5000 w = Some (true, w1)
    ∧ notifications w1 = notifications w
    ∧ sleeps w1 = sleeps w
    ∧ consume quiet 1 (Some "ready"%string) 100 w1
      = Some (NotificationItem.data (NotificationItem.of_data 4096 0), w2)
    ∧ notifications w2 = delete "ready"%string (notifications w).
Proof.
  apply (wait_then_consume quiet "ready"%string 5000 100
           (NotificationItem.of_data 4096 0)
           (snd (send quiet (Some "ready"%string) 4096 fresh)) 0 0).
  - reflexivity.
  - apply Z.leb_le. vm_compute. reflexivity.
  - apply Z.leb_le. vm_compute. reflexivity.
  - vm_compute. reflexivity.
Defined.

(** X14. With a zero timeout [consume] is a single poll: one take, no delay,
    and it is back within the 10 ms of the take, entry or not, mutex or
    not. *)
Theorem consume_zero_timeout_polls_once P k w fuel :
  unlocked w ->
  ∃ r w',
    consume P (S fuel) (Some k) 0 w = Some (r, w')
    ∧ takes w' = S (takes w)
    ∧ sleeps w' = sleeps w
    ∧ uptime w <= uptime w' <= uptime w + pdMS_TO_TICKS P 10.
Proof.
  intros Hu. pose proof (pdMS_TO_TICKS_range P 10) as Hb.
  destruct (decide (granted P (pdMS_TO_TICKS P 10) w)) as [Hg|Hg].
  - destruct (notifications w !! k) as [it|] eqn:Hk.
    + rewrite (consume_found P fuel k 0 it w Hu Hg Hk). do 2 eexists.
      split; [reflexivity|]. unfold granted in Hg. cbn. lia.
    + unfold consume. rewrite Hu, (consume_loop_miss P fuel k 0 _ w Hu Hk).
      cbv zeta. rewrite (proj2 (Z.leb_le _ _) (elapsed_nonneg _ _)).
      do 2 eexists. split; [reflexivity|].
      pose proof (take_cost_range P _ (takes w) (proj1 Hb)). cbn. lia.
  - unfold consume. rewrite Hu, (consume_loop_refused P fuel k 0 _ w Hu Hg).
    cbv zeta. rewrite (proj2 (Z.leb_le _ _) (elapsed_nonneg _ _)).
    do 2 eexists. split; [reflexivity|]. cbn. lia.
Qed.

Lemma consume_zero_timeout_polls_once_witness :
  ∃ r w',
    consume busy 1 (Some "status"%string) 0 fresh = Some (r, w')
    ∧ takes w' = S (takes fresh)
    ∧ sleeps w' = sleeps fresh
    ∧ uptime fresh <= uptime w' <= uptime fresh + pdMS_TO_TICKS busy 10.
Proof.
  apply (consume_zero_timeout_polls_once busy "status"%string fresh 0).
  reflexivity.
Defined.

(** X15. A [consume] with zero timeout that does not get the mutex returns the
    null pointer although the key has an entry; the entry stays in the
    map. *)
Theorem consume_misses_when_locked_out P k it w fuel :
  unlocked w ->
  ¬ granted P (pdMS_TO_TICKS P 10) w ->
  notifications w !! k = Some it ->
  ∃ w', consume P (S fuel) (Some k) 0 w = Some (Init nullptr, w')
        ∧ notifications w' !! k = Some it.
Proof.
  intros Hu Hg Hk. unfold consume.
  rewrite Hu, (consume_loop_refused P fuel k 0 _ w Hu Hg).
  cbv zeta. rewrite (proj2 (Z.leb_le _ _) (elapsed_nonneg _ _)).
  eexists. split; [reflexivity|exact Hk].
Qed.

Lemma consume_misses_when_locked_out_witness :
  let w := snd (send quiet (Some "status"%string) 4096 fresh) in
  ∃ w', consume busy 1 (Some "status"%string) 0 w = Some (Init nullptr, w')
        ∧ notifications w' !! "status"%string = Some (NotificationItem.of_data 4096 0).
Proof.
  apply (consume_misses_when_locked_out busy "status"%string
           (NotificationItem.of_data 4096 0)
           (snd (send quiet (Some "status"%string) 4096 fresh)) 0).
  - reflexivity.
  - unfold granted. vm_compute. intros H. apply H. reflexivity.
  - vm_compute. reflexivity.
Defined.

(** X16. [consume] absorbs a failed take: when the first take runs out of its
    10 ms, the timeout is longer than that, and the second take gets the
    mutex, the call sleeps once and returns the payload at the second
    poll. *)
Theorem consume_retries_after_refusal P k T it w fuel :
  unlocked w ->
  ¬ granted P (pdMS_TO_TICKS P 10) w ->
  Z.of_N (lock_latency P (S (takes w))) <= pdMS_TO_TICKS P 10 ->
  pdMS_TO_TICKS P 10 < T ->
  notifications w !! k = Some it ->
  ∃ w', consume P (S (S fuel)) (Some k) T w = Some (NotificationItem.data it, w')
        ∧ notifications w' = delete k (notifications w)
        ∧ takes w' = S (S (takes w))
        ∧ sleeps w' = S (sleeps w).
Proof.
  intros Hu Hg Hg1 HT Hk. pose proof (pdMS_TO_TICKS_range P 10) as Hb.
  unfold consume. rewrite Hu, (consume_loop_refused P (S fuel) k T _ w Hu Hg).
  cbv zeta. unfold xTaskGetTickCount at 1 2. cbn [uptime].
  rewrite elapsed_exact by lia.
  replace (uptime w + pdMS_TO_TICKS P 10 - uptime w) with (pdMS_TO_TICKS P 10) by lia.
  rewrite (proj2 (Z.leb_gt _ _) HT).
  set (w1 := vTaskDelay P (pdMS_TO_TICKS P 1) _).
  assert (Hu1 : unlocked w1) by done.
  assert (Hg1' : granted P (pdMS_TO_TICKS P 10) w1) by exact Hg1.
  cbn [consume_loop]. rewrite (take_granted P _ w1 Hu1 Hg1').
  cbn [notifications]. change (notifications w1) with (notifications w). rewrite Hk.
  eexists. split; [reflexivity|done].
Qed.

Lemma consume_retries_after_refusal_witness :
  let contended := mkPlatform 1000 (fun n => if n is 1%nat then 1000%N else 0%N)
                     (fun _ => 0%N) in
  let w := snd (send quiet (Some "status"%string) 4096 fresh) in
  ∃ w', consume contended 2 (Some "status"%string) 100 w
        = Some (NotificationItem.data (NotificationItem.of_data 4096 0), w')
        ∧ notifications w' = delete "status"%string (notifications w)
        ∧ takes w' = S (S (takes w))
        ∧ sleeps w' = S (sleeps w).
Proof.
  apply (consume_retries_after_refusal
           (mkPlatform 1000 (fun n => if n is 1%nat then 1000%N else 0%N) (fun _ => 0%N))
           "status"%string 100 (NotificationItem.of_data 4096 0)
           (snd (send quiet (Some "status"%string) 4096 fresh)) 0).
  - reflexivity.
  - unfold granted. vm_compute. intros H. apply H. reflexivity.
  - apply Z.leb_le. vm_compute. reflexivity.
  - vm_compute. reflexivity.
  - vm_compute. reflexivity.
Defined.

(** ** Timeouts of [signal] and [wait] *)

Section OtherDeadlines.

Variable P : Platform.
Variables (k : string) (T u0 la d : Z).

(** One iteration of [wait] on a key without entry. *)
Lemma wait_loop_miss fuel start w :
  unlocked w -> notifications w !! k = None ->
  wait_loop P (S fuel) (Some k) T start w =
    let w2 := after_poll P (pdMS_TO_TICKS P 100) w in
    if T <=? (xTaskGetTickCount w2 - start) mod TickType_modulus
    then Some (false, w2)
    else wait_loop P fuel (Some k) T start (vTaskDelay P (pdMS_TO_TICKS P 10) w2).
Proof.
  intros Hu Hk. cbn [wait_loop]. unfold after_poll, take_cost.
  destruct (decide (granted P (pdMS_TO_TICKS P 100) w)) as [Hg|Hg].
  - rewrite (has_granted P k w Hu Hg), Hk.
    rewrite bool_decide_eq_false_2 by (intros [? ?]; discriminate).
    unfold granted in Hg. rewrite Z.min_l by lia. reflexivity.
  - destruct (refused_results P k 0 0 w Hu Hg) as (_ & _ & -> & _).
    unfold granted in Hg. rewrite Z.min_r by lia. reflexivity.
Qed.

Lemma signal_loop_absent_total fuel :
  (∀ n, take_cost P (pdMS_TO_TICKS P 0) n <= la) ->
  (∀ n, 1 <= pdMS_TO_TICKS P 1 + Z.of_N (sched_latency P n) <= d) ->
  T + la + d <= TickType_modulus ->
  ∀ w,
    unlocked w -> notifications w !! k = None ->
    0 <= uptime w - u0 < T + d ->
    T + d - (uptime w - u0) <= Z.of_nat fuel ->
    ∃ w', signal_loop P fuel k T (u0 mod TickType_modulus) w = Some (Init (-1), w')
          ∧ notifications w' = notifications w
          ∧ T <= uptime w' - u0 < T + (la + d).
Proof.
  intros take_bound delay_bound no_wrap.
  induction fuel as [|fuel IH]; intros w Hu Hk He Hfuel; [lia|].
  rewrite (signal_loop_miss P fuel k T _ w Hu Hk). cbv zeta.
  pose proof (take_cost_range P (pdMS_TO_TICKS P 0) (takes w)
                (proj1 (pdMS_TO_TICKS_range P 0))) as Hc.
  specialize (take_bound (takes w)). specialize (delay_bound (sleeps w)).
  unfold xTaskGetTickCount, after_poll. cbn [uptime].
  rewrite elapsed_exact by lia.
  destruct (Z.leb_spec T
    (uptime w + take_cost P (pdMS_TO_TICKS P 0) (takes w) - u0)) as [Hret|Hgo].
  - eexists. split; [reflexivity|]. cbn [notifications uptime]. split; [done|lia].
  - destruct (IH (vTaskDelay P (pdMS_TO_TICKS P 1)
                    (mkWorld (notifications w) (Some false)
                       (uptime w + take_cost P (pdMS_TO_TICKS P 0) (takes w))
                       (S (takes w)) (sleeps w))))
      as (w' & Hrun & Hm & Hbd);
      [done|exact Hk|unfold vTaskDelay; cbn [uptime sleeps]; lia..|].
    exists w'. split; [exact Hrun|]. split; [exact Hm|exact Hbd].
Qed.

Lemma wait_loop_absent_total fuel :
  (∀ n, take_cost P (pdMS_TO_TICKS P 100) n <= la) ->
  (∀ n, 1 <= pdMS_TO_TICKS P 10 + Z.of_N (sched_latency P n) <= d) ->
  T + la + d <= TickType_modulus ->
  ∀ w,
    unlocked w -> notifications w !! k = None ->
    0 <= uptime w - u0 < T + d ->
    T + d - (uptime w - u0) <= Z.of_nat fuel ->
    ∃ w', wait_loop P fuel (Some k) T (u0 mod TickType_modulus) w = Some (false, w')
          ∧ notifications w' = notifications w
          ∧ T <= uptime w' - u0 < T + (la + d).
Proof.
  intros take_bound delay_bound no_wrap.
  induction fuel as [|fuel IH]; intros w Hu Hk He Hfuel; [lia|].
  rewrite (wait_loop_miss fuel _ w Hu Hk). cbv zeta.
  pose proof (take_cost_range P (pdMS_TO_TICKS P 100) (takes w)
                (proj1 (pdMS_TO_TICKS_range P 100))) as Hc.
  specialize (take_bound (takes w)). specialize (delay_bound (sleeps w)).
  unfold xTaskGetTickCount, after_poll. cbn [uptime].
  rewrite elapsed_exact by lia.
  destruct (Z.leb_spec T
    (uptime w + take_cost P (pdMS_TO_TICKS P 100) (takes w) - u0)) as [Hret|Hgo].
  - eexists. split; [reflexivity|]. cbn [notifications uptime]. split; [done|lia].
  - destruct (IH (vTaskDelay P (pdMS_TO_TICKS P 10)
                    (mkWorld (notifications w) (Some false)
                       (uptime w + take_cost P (pdMS_TO_TICKS P 100) (takes w))
                       (S (takes w)) (sleeps w))))
      as (w' & Hrun & Hm & Hbd);
      [done|exact Hk|unfold vTaskDelay; cbn [uptime sleeps]; lia..|].
    exists w'. split; [exact Hrun|]. split; [exact Hm|exact Hbd].
Qed.

End OtherDeadlines.

(** X17. [signal] on a key without entry, with a clock that every delay moves
    by 1 to [d] ticks and takes that cost at most [la] ticks: for a timeout
    [T] that ends one polling period before the tick counter wraps, the call
    returns [-1], the map untouched, between [T] and [T + la + d] ticks
    after it began. *)
Theorem signal_absent_times_out P k T la d w :
  unlocked w ->
  notifications w !! k = None ->
  0 <= T ->
  (∀ n, take_cost P (pdMS_TO_TICKS P 0) n <= la) ->
  (∀ n, 1 <= pdMS_TO_TICKS P 1 + Z.of_N (sched_latency P n) <= d) ->
  T + la + d <= TickType_modulus ->
  ∃ fuel w',
    signal P fuel (Some k) T w = Some (Init (-1), w')
    ∧ notifications w' = notifications w
    ∧ T <= uptime w' - uptime w < T + (la + d).
Proof.
  intros Hu Hk HT Hla Hd Hwrap. exists (Z.to_nat (T + d)).
  pose proof (Hd O) as Hd0.
  destruct (signal_loop_absent_total P k T (uptime w) la d (Z.to_nat (T + d))
              Hla Hd Hwrap w Hu Hk) as (w' & Hrun & Hm & Hb); [lia..|].
  exists w'. unfold signal. rewrite Hu. done.
Qed.

Lemma signal_absent_times_out_witness :
  ∃ fuel w',
    signal quiet fuel (Some "counter"%string) 100 fresh = Some (Init (-1), w')
    ∧ notifications w' = notifications fresh
    ∧ 100 <= uptime w' - uptime fresh < 100 + (0 + 1).
Proof.
  apply (signal_absent_times_out quiet "counter"%string 100 0 1 fresh).
  - reflexivity.
  - reflexivity.
  - lia.
  - intros n. vm_compute. discriminate.
  - intros n. vm_compute. split; discriminate.
  - vm_compute. discriminate.
Defined.

(** X18. [wait] on a key without entry, on a store with its mutex, under the
    same kind of clock (a take costs at most [la] ticks, the 10 ms delay
    moves the clock by 1 to [d] ticks): the call returns false, the map
    untouched, between [T] and [T + la + d] ticks after it began. *)
Theorem wait_absent_times_out P k T la d w :
  unlocked w ->
  notifications w !! k = None ->
  0 <= T ->
  (∀ n, take_cost P (pdMS_TO_TICKS P 100) n <= la) ->
  (∀ n, 1 <= pdMS_TO_TICKS P 10 + Z.of_N (sched_latency P n) <= d) ->
  T + la + d <= TickType_modulus ->
  ∃ fuel w',
    wait P fuel (Some k) T w = Some (false, w')
    ∧ notifications w' = notifications w
    ∧ T <= uptime w' - uptime w < T + (la + d).
Proof.
  intros Hu Hk HT Hla Hd Hwrap. exists (Z.to_nat (T + d)).
  pose proof (Hd O) as Hd0.
  destruct (wait_loop_absent_total P k T (uptime w) la d (Z.to_nat (T + d))
              Hla Hd Hwrap w Hu Hk) as (w' & Hrun & Hm & Hb); [lia..|].
  exists w'. unfold wait. done.
Qed.

Lemma wait_absent_times_out_witness :
  ∃ fuel w',
    wait quiet fuel (Some "ready"%string) 5000 fresh = Some (false, w')
    ∧ notifications w' = notifications fresh
    ∧ 5000 <= uptime w' - uptime fresh < 5000 + (0 + 10).
Proof.
  apply (wait_absent_times_out quiet "ready"%string 5000 0 10 fresh).
  - reflexivity.
  - reflexivity.
  - lia.
  - intros n. vm_compute. discriminate.
  - intros n. vm_compute. split; discriminate.
  - vm_compute. discriminate.
Defined.

(** X19. On a store without mutex, a [wait] that returns has returned false,
    has made no take and has left the map alone, and it has not returned
    before the whole timeout went by. *)
Theorem wait_without_mutex_blocks P k t w fuel r w' :
  mutex w = None ->
  wait P fuel (Some k) t w = Some (r, w') ->
  r = false
  ∧ notifications w' = notifications w
  ∧ takes w' = takes w
  ∧ t <= uptime w' - uptime w.
Proof.
  intros Hm. unfold wait. intros Hrun.
  by apply (wait_lockless_result P k t (uptime w) fuel w r w' Hm) in Hrun.
Qed.

Lemma wait_without_mutex_blocks_witness :
  let w := lockless ∅ 0 0 0 in
  let w' := lockless ∅ 5000 0 500 in
  false = false
  ∧ notifications w' = notifications w
  ∧ takes w' = takes w
  ∧ 5000 <= uptime w' - uptime w.
Proof.
  apply (wait_without_mutex_blocks quiet "ready"%string 5000 (lockless ∅ 0 0 0) 501).
  - reflexivity.
  - vm_compute. reflexivity.
Defined.

(** X20. [signal] asks for the mutex with a block time of zero.  With a zero
    timeout the call therefore costs no tick at all, and when the mutex is
    not free at that very instant it returns [-1] although the key has an
    entry, which stays in the map. *)
Theorem signal_zero_timeout_is_instant P k w fuel :
  unlocked w ->
  (∃ r w', signal P (S fuel) (Some k) 0 w = Some (r, w')
           ∧ uptime w' = uptime w ∧ takes w' = S (takes w) ∧ sleeps w' = sleeps w)
  ∧ (¬ granted P 0 w ->
     ∃ w', signal P (S fuel) (Some k) 0 w = Some (Init (-1), w')
           ∧ notifications w' = notifications w).
Proof.
  intros Hu. assert (H0 : pdMS_TO_TICKS P 0 = 0) by reflexivity.
  unfold signal. rewrite Hu. cbn [signal_loop]. rewrite H0.
  destruct (decide (granted P 0 w)) as [Hg|Hg].
  - split; [|done]. rewrite (take_granted P _ w Hu Hg). cbn [notifications].
    assert (Hlat : Z.of_N (lock_latency P (takes w)) = 0)
      by (unfold granted in Hg; lia).
    destruct (notifications w !! k) as [it|].
    + do 2 eexists. split; [reflexivity|]. cbn. lia.
    + rewrite (proj2 (Z.leb_le _ _) (elapsed_nonneg _ _)).
      do 2 eexists. split; [reflexivity|]. cbn. lia.
  - rewrite (take_refused P _ w Hu Hg).
    rewrite (proj2 (Z.leb_le _ _) (elapsed_nonneg _ _)).
    split; [|intros _]; repeat eexists; cbn; lia.
Qed.

Lemma signal_zero_timeout_is_instant_witness :
  let w := snd (send_signal quiet (Some "counter"%string) 7 fresh) in
  (∃ r w', signal busy 1 (Some "counter"%string) 0 w = Some (r, w')
           ∧ uptime w' = uptime w ∧ takes w' = S (takes w) ∧ sleeps w' = sleeps w)
  ∧ (¬ granted busy 0 w ->
     ∃ w', signal busy 1 (Some "counter"%string) 0 w = Some (Init (-1), w')
           ∧ notifications w' = notifications w).
Proof.
  apply (signal_zero_timeout_is_instant busy "counter"%string
           (snd (send_signal quiet (Some "counter"%string) 7 fresh)) 0).
  reflexivity.
Defined.
